(** * Simple Invoice Generator: the PDF layout routine and the form's callbacks

    A shallow embedding of [src/invoice.py].  Python's [float] is IEEE 754
    binary64, which is Rocq's primitive [float]: every arithmetic step below is
    the one the interpreter performs, rounding included.  The canvas of
    reportlab is modelled by the ordered list of calls made on it. *)

From Stdlib Require Import ZArith List String Ascii Bool Lia Floats.
From Stdlib Require Import DecimalString QArith Lqa.
Import ListNotations.

Close Scope Q_scope.

Set Warnings "-inexact-float".

Local Open Scope list_scope.
Local Open Scope string_scope.

(** ** Units and page size (reportlab.lib.units, reportlab.lib.pagesizes) *)

Module Units.
Local Open Scope float_scope.

Definition inch : float := 72.0.
Definition cm : float := inch / 2.54.
Definition mm : float := cm * 0.1.

(** [A4 = (210*mm, 297*mm)] *)
Definition A4 : float * float := (210 * mm, 297 * mm).
End Units.
Export Units.

(** ** Config *)

Definition CURRENCY : string := "USD".
Definition DEFAULT_FILENAME_PREFIX : string := "invoice".
Definition PAGE_WIDTH : float := fst A4.
Definition PAGE_HEIGHT : float := snd A4.

(** ** Python values and built-ins *)

(** The values that reach [money] and [float()]. *)
Inductive pyval :=
| PyFloat (f : float)
| PyInt (z : Z)
| PyStr (s : string)
| PyNone.

(** [float(n)] for an int [n]: the nearest double, ties to even. *)
Definition float_of_Z (z : Z) : float :=
  SF2Prim (binary_normalize prec emax z 0 false).

(** [max(a, b)] on floats: the first argument is kept unless the second
    compares greater. *)
Definition py_max (a b : float) : float :=
  if (a <? b)%float then b else a.

(** *** Text helpers *)

Definition is_empty (s : string) : bool :=
  match s with EmptyString => true | _ => false end.

(** [range(start, stop, step)] for a positive step. *)
Fixpoint range_from (fuel start stop step : nat) : list nat :=
  match fuel with
  | O => []
  | S fuel' =>
      if (start <? stop)%nat
      then start :: range_from fuel' (start + step)%nat stop step
      else []
  end.

Definition range (start stop step : nat) : list nat :=
  range_from (stop - start)%nat start stop step.

(** [s[i:i+n]]: slicing clamps at the end of the string. *)
Definition slice (s : string) (i n : nat) : string := substring i n s.

(** [s.split('\n')] *)
Definition newline : ascii := ascii_of_nat 10.

Fixpoint split_lines_acc (cur : string) (s : string) : list string :=
  match s with
  | EmptyString => [cur]
  | String c rest =>
      if Ascii.eqb c newline
      then cur :: split_lines_acc "" rest
      else split_lines_acc (cur ++ String c "") rest
  end.

Definition split_lines (s : string) : list string := split_lines_acc "" s.

(** [str.isspace] on a single character (code points below 256). *)
Definition is_space (c : ascii) : bool :=
  let n := nat_of_ascii c in
  (((9 <=? n) && (n <=? 13)) || ((28 <=? n) && (n <=? 32))
  || (n =? 133) || (n =? 160))%nat.

Fixpoint lstrip (s : string) : string :=
  match s with
  | EmptyString => EmptyString
  | String c rest => if is_space c then lstrip rest else s
  end.

Fixpoint rstrip (s : string) : string :=
  match s with
  | EmptyString => EmptyString
  | String c rest =>
      let r := rstrip rest in
      if is_empty r && is_space c then EmptyString else String c r
  end.

(** [s.strip()] *)
Definition strip (s : string) : string := rstrip (lstrip s).

(** *** Fixed-point formatting: the format spec [,.2f] *)

(** [n / d] rounded to the nearest integer, ties to even ([0 <= n], [0 < d]). *)
Definition round_half_even (n d : Z) : Z :=
  let q := (n / d)%Z in
  let r := (n mod d)%Z in
  match (2 * r ?= d)%Z with
  | Lt => q
  | Gt => (q + 1)%Z
  | Eq => if Z.even q then q else (q + 1)%Z
  end.

(** Hundredths in the exact value [m * 2^e], correctly rounded. *)
Definition cents_of (m : positive) (e : Z) : Z :=
  if (0 <=? e)%Z
  then (Zpos m * 100 * 2 ^ e)%Z
  else round_half_even (Zpos m * 100) (2 ^ (- e)).

Definition digits_of (z : Z) : string :=
  NilZero.string_of_uint (N.to_uint (Z.to_N z)).

(** Thousands separators in a string of digits. *)
Fixpoint group_thousands (s : string) : string :=
  match s with
  | EmptyString => EmptyString
  | String c rest =>
      let n := String.length rest in
      if ((0 <? n) && (n mod 3 =? 0))%nat
      then String c ("," ++ group_thousands rest)
      else String c (group_thousands rest)
  end.

Definition two_digits (z : Z) : string :=
  if (z <? 10)%Z then "0" ++ digits_of z else digits_of z.

Definition sign_text (s : bool) : string := if s then "-" else "".

(** [f"{v:,.2f}"] *)
Definition format_2f (v : float) : string :=
  match Prim2SF v with
  | S754_nan => "nan"
  | S754_infinity s => sign_text s ++ "inf"
  | S754_zero s => sign_text s ++ "0.00"
  | S754_finite s m e =>
      let c := cents_of m e in
      sign_text s ++ group_thousands (digits_of (c / 100)) ++ "."
        ++ two_digits (c mod 100)
  end.

(** ** Data model *)

(** A line item, as [add_item] stores it.  The callback stores the int [0]
    when a field does not parse; every later use goes through [float(...)],
    so the stored number is represented by the double it converts to. *)
Record item := {
  desc : string;
  qty : float;
  unit : float
}.

Record company_info := {
  name : string;
  address_lines : list string;
  notes : string
}.

Record invoice_meta := {
  date : string;
  invoice_no : string
}.

(** ** The canvas: the calls made on [reportlab.pdfgen.canvas.Canvas] *)

Inductive cmd :=
| SetFont (face : string) (size : Z)
| DrawString (x y : float) (text : string)
| DrawRightString (x y : float) (text : string)
| DrawImage (path : string) (x y width height : float)
| ShowPage
| Save.

(** What a run of [generate_pdf] leaves behind: the canvas calls in order,
    the lines printed on standard output, and the exception it ends with,
    if any. *)
Record pdf_run := {
  calls : list cmd;
  printed : list string;
  raised : option string
}.

(** ** The world outside the program *)

Record world := {
  (** [os.path.exists] *)
  path_exists : string -> bool;
  (** [Image.open(p).size] as (width, height), or the text of the exception
      PIL raises. *)
  image_open : string -> string + (Z * Z);
  (** [c.drawImage(p, ...)]: the text of the exception reportlab raises when
      it cannot read the pixels of the file; [None] when the image is
      drawn. *)
  draw_image_error : string -> option string;
  (** [c.save()]: the text of the exception when the file cannot be
      written. *)
  save_error : string -> option string;
  (** [datetime.now().strftime('%Y%m%d%H%M%S')] and [strftime('%Y-%m-%d')] *)
  now_stamp : string;
  now_date : string;
  (** [filedialog.asksaveasfilename] for a given initial file name; the empty
      string when the dialog is cancelled. *)
  asksaveasfilename : string -> string
}.

(** ** The form *)

(** The attributes of the form that the callbacks read or write: the item
    list, the logo path, the text of each entry, the rows of the list box
    and the text of the two total labels. *)
Record InvoiceApp := {
  items : list item;
  logo_path : option string;
  company_name_var : string;
  company_addr_var : string;
  desc_entry : string;
  qty_entry : string;
  unit_entry : string;
  items_list : list string;
  discount_var : string;
  subtotal_lbl : string;
  total_lbl : string
}.

(** What a callback does to the outside: message boxes, the save dialog,
    and a run of [generate_pdf] on a path. *)
Inductive event :=
| ShowWarning (title message : string)
| ShowInfo (title message : string)
| ShowError (title message : string)
| AskSaveAs (initialfile : string)
| GeneratePdf (path : string) (run : pdf_run).

(** ** Layout geometry of [generate_pdf] *)

Module Geometry.
Local Open Scope float_scope.

Definition width : float := PAGE_WIDTH.
Definition height : float := PAGE_HEIGHT.
Definition left_margin : float := 20 * mm.
Definition right_margin : float := width - 20 * mm.
Definition top : float := height - 20 * mm.
Definition logo_width_mm : float := 40 * mm.
Definition logo_height_mm : float := 25 * mm.
Definition table_top : float := top - 55 * mm.
Definition max_chars : nat := 50.

(** Lines 61-67: the box of the logo for an image of size [img_w] by
    [img_h]; [None] is the [ZeroDivisionError] of [img_h / img_w].  The
    arithmetic is a parameter, so that the same lines can be read over the
    doubles the program computes with and over exact rationals. *)
Section LogoBox.
Variable num : Type.
Variable of_int : Z -> num.
Variables mul div : num -> num -> num.
Variable gtb : num -> num -> bool.
Variables logo_width logo_height : num.

Definition fit_logo (img_w img_h : Z) : option (num * num) :=
  if (img_w =? 0)%Z then None
  else
    let aspect := div (of_int img_h) (of_int img_w) in
    let target_w := logo_width in
    let target_h := mul logo_width aspect in
    if gtb target_h logo_height
    then Some (div logo_height aspect, logo_height)
    else Some (target_w, target_h).
End LogoBox.

(** The box as the program computes it. *)
Definition logo_box : Z -> Z -> option (float * float) :=
  fit_logo float float_of_Z PrimFloat.mul PrimFloat.div
    (fun a b => b <? a) logo_width_mm logo_height_mm.
End Geometry.
Export Geometry.

(** The same lines over exact rationals: [mm] is 72/25.4 points, the limits
    are [40 * mm] and [25 * mm], and [>] is the order of the rationals. *)
Module Exact.
Local Open Scope Q_scope.

Definition inch : Q := 72.
Definition cm : Q := inch / (254 # 100).
Definition mm : Q := cm * (1 # 10).
Definition logo_width_mm : Q := 40 * mm.
Definition logo_height_mm : Q := 25 * mm.

Definition logo_box : Z -> Z -> option (Q * Q) :=
  fit_logo Q inject_Z Qmult Qdiv (fun a b => negb (Qle_bool a b))
    logo_width_mm logo_height_mm.
End Exact.






(** The description wrapped by fixed-length slicing (line 114). *)
Definition wrap (d : string) : list string :=
  if is_empty d then [""]
  else map (fun i => slice d i max_chars) (range 0 (String.length d) max_chars).

(** ** A concrete reading of the two conversions

    Worked examples need the two conversions of the interpreter that the
    program section leaves open.  [Sample.float_of_string] is [float(s)] on
    the strings made of decimal digits with an optional minus sign, and
    rejects every other string; [Sample.str_of_float] is [str(x)] on the
    doubles that are integers below 10^16 and on infinities and NaN, and
    falls back to two decimals elsewhere. *)
Module Sample.

Fixpoint digits_value (s : string) (acc : Z) : option Z :=
  match s with
  | EmptyString => Some acc
  | String c rest =>
      let n := nat_of_ascii c in
      if ((48 <=? n) && (n <=? 57))%nat
      then digits_value rest (acc * 10 + Z.of_nat (n - 48))%Z
      else None
  end.

Definition float_of_string (s : string) : option float :=
  match s with
  | EmptyString => None
  | String "-" rest =>
      if is_empty rest then None
      else option_map (fun z => (- float_of_Z z)%float) (digits_value rest 0)
  | _ => option_map float_of_Z (digits_value s 0)
  end.

Definition str_of_float (v : float) : string :=
  match Prim2SF v with
  | S754_nan => "nan"
  | S754_infinity s => sign_text s ++ "inf"
  | S754_zero s => sign_text s ++ "0.0"
  | S754_finite s m e =>
      if ((0 <=? e) && (Zpos m * 2 ^ e <? 10 ^ 16))%Z
      then sign_text s ++ digits_of (Zpos m * 2 ^ e) ++ ".0"
      else if ((e <? 0) && (Zpos m mod 2 ^ (- e) =? 0))%Z
      then sign_text s ++ digits_of (Zpos m / 2 ^ (- e)) ++ ".0"
      else format_2f v
  end.

(** A world with no files, in which every save succeeds and the dialog
    returns the name it proposes. *)
Definition quiet : world :=
  {| path_exists := fun _ => false;
     image_open := fun _ => inl "cannot identify image file";
     draw_image_error := fun _ => None;
     save_error := fun _ => None;
     now_stamp := "20250101120000";
     now_date := "2025-01-01";
     asksaveasfilename := fun initialfile => initialfile |}.

(** The same world with a file [logo.png] that PIL cannot decode. *)
Definition broken_logo : world :=
  {| path_exists := fun p => String.eqb p "logo.png";
     image_open := fun _ => inl "cannot identify image file";
     draw_image_error := fun _ => None;
     save_error := fun _ => None;
     now_stamp := "20250101120000";
     now_date := "2025-01-01";
     asksaveasfilename := fun initialfile => initialfile |}.

(** The same world with a file [logo.png] whose header PIL reads (800 by
    600 pixels) and whose pixel data is cut short: [drawImage] raises. *)
Definition truncated_logo : world :=
  {| path_exists := fun p => String.eqb p "logo.png";
     image_open := fun _ => inr (800, 600)%Z;
     draw_image_error := fun _ => Some "image file is truncated";
     save_error := fun _ => None;
     now_stamp := "20250101120000";
     now_date := "2025-01-01";
     asksaveasfilename := fun initialfile => initialfile |}.

Definition company : company_info :=
  {| name := "Your Company";
     address_lines := ["123 Business St, City"];
     notes := "Thank you for your business!" |}.

Definition meta : invoice_meta :=
  {| date := "2025-01-01"; invoice_no := "20250101120000" |}.

Definition consulting : item :=
  {| desc := "Consulting"; qty := 2; unit := 100 |}.

(** A description of 118 characters, which wraps into three lines. *)
Definition long_description : string :=
  "Design and development services for the customer portal, including hosting, maintenance and support for twelve months.".

(** The form as it starts, with the text of the discount entry given. *)
Definition form (its : list item) (discount : string) : InvoiceApp :=
  {| items := its;
     logo_path := None;
     company_name_var := "Your Company";
     company_addr_var := "123 Business St, City";
     desc_entry := "Consulting";
     qty_entry := "2";
     unit_entry := "100";
     items_list := [];
     discount_var := discount;
     subtotal_lbl := "0.00 USD";
     total_lbl := "0.00 USD" |}.

End Sample.

(** ** The program proper

    Two conversions of the interpreter are left as parameters:
    [float_of_string s] is [float(s)] on a string, [None] when it raises
    [ValueError]; [str_of_float x] is [str(x)], the shortest text that reads
    back as [x]. *)

Section Program.

Variable float_of_string : string -> option float.
Variable str_of_float : float -> string.

Set Default Proof Using "Type".

(** [float(v)]; [None] when the conversion raises. *)
Definition py_float (v : pyval) : option float :=
  match v with
  | PyFloat f => Some f
  | PyInt z =>
      let f := float_of_Z z in
      if is_infinity f then None else Some f
  | PyStr s => float_of_string s
  | PyNone => None
  end.

(** Lines 36-41. *)
Definition money (v : pyval) : string :=
  let v :=
    match py_float v with
    | Some f => f
    | None => 0%float
    end in
  (format_2f v ++ " " ++ CURRENCY)%string.

(** *** [generate_pdf] *)

Local Open Scope float_scope.
Local Open Scope list_scope.

(** Lines 59-68, the body of the [try]: the calls it adds to the canvas, or
    the text of the exception that leaves it.  [Image.open], the division
    [img_h / img_w] and [c.drawImage] can each raise; a call that raises
    draws nothing. *)
Definition logo_attempt (w : world) (p : string) : string + list cmd :=
  match image_open w p with
  | inl e => inl e
  | inr (img_w, img_h) =>
      match logo_box img_w img_h with
      | None => inl "division by zero"%string
      | Some (target_w, target_h) =>
          match draw_image_error w p with
          | Some e => inl e
          | None =>
              inr [DrawImage p left_margin (top - target_h - 5 * mm)
                     target_w target_h]
          end
      end
  end.

(** Lines 57-70: the logo.  Whatever the [try] raises is caught and
    printed. *)
Definition draw_logo (w : world) (logo_path : option string)
  : list cmd * list string :=
  match logo_path with
  | None => ([], [])
  | Some p =>
      if negb (is_empty p) && path_exists w p then
        match logo_attempt w p with
        | inl e => ([], ["Logo load error: " ++ e]%string)
        | inr drawn => (drawn, [])
        end
      else ([], [])
  end.

(** Lines 72-81: company name and address. *)
Fixpoint draw_address (text_x text_y : float) (ls : list string) : list cmd :=
  match ls with
  | [] => []
  | line :: rest =>
      DrawString text_x text_y line :: draw_address text_x (text_y - 11) rest
  end.

Definition draw_company (ci : company_info) : list cmd :=
  let text_x := left_margin + logo_width_mm + 5 * mm in
  let text_y := top - 5 * mm in
  [SetFont "Helvetica-Bold" 14; DrawString text_x text_y (name ci);
   SetFont "Helvetica" 10]
  ++ draw_address text_x (text_y - 12) (address_lines ci).

(** Lines 83-92: the invoice label, date and number. *)
Definition draw_meta (im : invoice_meta) : list cmd :=
  let meta_x := right_margin - 70 * mm in
  let meta_y := top - 5 * mm in
  [SetFont "Helvetica-Bold" 12; DrawString meta_x meta_y "Invoice";
   SetFont "Helvetica" 9;
   DrawString meta_x (meta_y - 14) ("Date: " ++ date im)%string;
   DrawString meta_x (meta_y - 14 - 11)
     ("Invoice #: " ++ invoice_no im)%string].

(** Lines 94-100: the table header. *)
Definition draw_table_header : list cmd :=
  [SetFont "Helvetica-Bold" 10;
   DrawString left_margin table_top "Description";
   DrawString (left_margin + 95 * mm) table_top "Qty";
   DrawString (left_margin + 110 * mm) table_top "Unit Price";
   DrawString (left_margin + 140 * mm) table_top "Total"].

(** Lines 116-122: what one wrapped line draws at the cursor [y]. *)
Definition draw_line (q u total : float) (li : nat) (y : float)
    (line : string) : list cmd :=
  if (li =? 0)%nat then
    [DrawString left_margin y line;
     DrawRightString (left_margin + 120 * mm) y (str_of_float q);
     DrawRightString (left_margin + 150 * mm) y (format_2f u);
     DrawRightString right_margin y (format_2f total)]
  else [DrawString left_margin y line].

(** Lines 123-127: the cursor moves down one line; below the low margin
    the page is closed and the cursor goes back to the top. *)
Definition advance (y : float) : float * list cmd :=
  let y := y - 11 in
  if y <? 40 * mm then (height - 40 * mm, [ShowPage]) else (y, []).

(** Lines 115-127: the inner loop over [enumerate(lines)]. *)
Fixpoint draw_lines (q u total : float) (li : nat) (lines : list string)
    (y : float) : float * list cmd :=
  match lines with
  | [] => (y, [])
  | line :: rest =>
      let row := draw_line q u total li y line in
      let '(y1, brk) := advance y in
      let '(y2, more) := draw_lines q u total (S li) rest y1 in
      (y2, row ++ brk ++ more)
  end.

(** Lines 105-127: the loop over the items, threading the cursor and the
    running subtotal. *)
Fixpoint draw_items (items : list item) (y subtotal : float)
  : float * float * list cmd :=
  match items with
  | [] => (y, subtotal, [])
  | it :: rest =>
      let q := qty it in
      let u := unit it in
      let total := q * u in
      let subtotal := subtotal + total in
      let '(y1, row) := draw_lines q u total 0 (wrap (desc it)) y in
      let '(y2, s2, more) := draw_items rest y1 subtotal in
      (y2, s2, row ++ more)
  end.

(** Lines 129-143: the totals block, from the cursor the rows left. *)
Definition draw_totals (y subtotal discount_percent : float)
  : float * list cmd :=
  let y := y - 8 in
  let c1 :=
    [SetFont "Helvetica-Bold" 10;
     DrawRightString (left_margin + 150 * mm) y "Subtotal:";
     DrawRightString right_margin y (format_2f subtotal)] in
  let y := y - 12 in
  let discount_amount := subtotal * (discount_percent / 100) in
  let c2 :=
    [SetFont "Helvetica" 10;
     DrawRightString (left_margin + 150 * mm) y
       ("Discount (" ++ str_of_float discount_percent ++ "%):")%string;
     DrawRightString right_margin y ("-" ++ format_2f discount_amount)%string] in
  let y := y - 12 in
  let total_due := subtotal - discount_amount in
  let c3 :=
    [SetFont "Helvetica-Bold" 12;
     DrawRightString (left_margin + 150 * mm) y "Total Due:";
     DrawRightString right_margin y (format_2f total_due)] in
  (y, c1 ++ c2 ++ c3).

(** Lines 153-155: one line per segment of the notes. *)
Fixpoint draw_note_lines (y : float) (ls : list string) : list cmd :=
  match ls with
  | [] => []
  | line :: rest =>
      DrawString left_margin y line :: draw_note_lines (y - 10) rest
  end.

(** Lines 145-155: the notes block. *)
Definition draw_notes (y : float) (ci : company_info) : list cmd :=
  let y := y - 25 in
  SetFont "Helvetica" 9 ::
  if is_empty (notes ci) then []
  else
    DrawString left_margin y "Notes:" :: SetFont "Helvetica" 8
      :: draw_note_lines (y - 12) (split_lines (notes ci)).

(** Lines 45-158. *)
Definition generate_pdf (w : world) (output_path : string)
    (ci : company_info) (logo_path : option string) (items : list item)
    (discount_percent : float) (im : invoice_meta) : pdf_run :=
  let '(logo, out) := draw_logo w logo_path in
  let '(y, subtotal, rows) := draw_items items (table_top - 10) 0 in
  let '(y, totals) := draw_totals y subtotal discount_percent in
  {| calls :=
       logo ++ draw_company ci ++ draw_meta im ++ draw_table_header
       ++ [SetFont "Helvetica" 9] ++ rows ++ totals ++ draw_notes y ci
       ++ [ShowPage; Save];
     printed := out;
     raised := save_error w output_path |}.

(** *** [InvoiceApp]: the form's state and its callbacks *)

(** [try: x = float(s) / except Exception: x = 0] *)
Definition float_or_zero (s : string) : float :=
  match float_of_string s with
  | Some f => f
  | None => 0
  end.

(** Lines 280-282: the subtotal of the totals display. *)
Definition ui_subtotal (its : list item) : float :=
  fold_left (fun subtotal it => subtotal + qty it * unit it) its 0.

(** Lines 279-291. *)
Definition update_totals (st : InvoiceApp) : InvoiceApp :=
  let subtotal := ui_subtotal (items st) in
  let disc := float_or_zero (discount_var st) in
  let disc := py_max 0 disc in
  let discount_amount := subtotal * (disc / 100) in
  let total := subtotal - discount_amount in
  {| items := items st;
     logo_path := logo_path st;
     company_name_var := company_name_var st;
     company_addr_var := company_addr_var st;
     desc_entry := desc_entry st;
     qty_entry := qty_entry st;
     unit_entry := unit_entry st;
     items_list := items_list st;
     discount_var := discount_var st;
     subtotal_lbl := money (PyFloat subtotal);
     total_lbl := money (PyFloat total) |}.

(** The two characters of the row label outside ASCII, as UTF-8. *)
Definition em_dash : string :=
  String (ascii_of_nat 226) (String (ascii_of_nat 128)
    (String (ascii_of_nat 148) EmptyString)).
Definition times_sign : string :=
  String (ascii_of_nat 195) (String (ascii_of_nat 151) EmptyString).

(** Line 258: the text of the list box row; a quantity that did not parse
    is the int [0] and prints as such. *)
Definition row_label (d qty_text unit_text : string) : string :=
  let q := float_or_zero qty_text in
  let u := float_or_zero unit_text in
  let q_text :=
    match float_of_string qty_text with
    | Some f => str_of_float f
    | None => "0"%string
    end in
  (d ++ " " ++ em_dash ++ " " ++ q_text ++ " " ++ times_sign ++ " "
     ++ format_2f u ++ " = " ++ format_2f (q * u))%string.

(** Lines 244-262. *)
Definition add_item (st : InvoiceApp) : InvoiceApp * list event :=
  let d := strip (desc_entry st) in
  let q := float_or_zero (qty_entry st) in
  let u := float_or_zero (unit_entry st) in
  if is_empty d then
    (st, [ShowWarning "Missing description"
            "Please enter an item description"])
  else
    (update_totals
       {| items := items st ++ [{| desc := d; qty := q; unit := u |}];
          logo_path := logo_path st;
          company_name_var := company_name_var st;
          company_addr_var := company_addr_var st;
          desc_entry := "";
          qty_entry := "";
          unit_entry := "";
          items_list :=
            items_list st ++ [row_label d (qty_entry st) (unit_entry st)];
          discount_var := discount_var st;
          subtotal_lbl := subtotal_lbl st;
          total_lbl := total_lbl st |},
     []).

(** Line 299: the address split on newlines, blank lines dropped. *)
Definition address_of (addr : string) : list string :=
  map strip
    (filter (fun line => negb (is_empty (strip line))) (split_lines addr)).

(** Lines 293-318. *)
Definition generate_invoice_pdf (w : world) (st : InvoiceApp) : InvoiceApp * list event :=
  match items st with
  | [] =>
      (st, [ShowWarning "No items"
              "Add at least one item before generating invoice"])
  | _ :: _ =>
      let company :=
        {| name := company_name_var st;
           address_lines := address_of (company_addr_var st);
           notes := "Thank you for your business!" |} in
      let discount_percent := float_or_zero (discount_var st) in
      let invoice_no := now_stamp w in
      let meta := {| date := now_date w; invoice_no := invoice_no |} in
      let default_name :=
        (DEFAULT_FILENAME_PREFIX ++ "_" ++ invoice_no ++ ".pdf")%string in
      let save_path := asksaveasfilename w default_name in
      if is_empty save_path then (st, [AskSaveAs default_name])
      else
        let run :=
          generate_pdf w save_path company (logo_path st) (items st)
            discount_percent meta in
        match raised run with
        | None =>
            (st, [AskSaveAs default_name; GeneratePdf save_path run;
                  ShowInfo "Saved" ("Invoice saved to: " ++ save_path)%string])
        | Some e =>
            (st, [AskSaveAs default_name; GeneratePdf save_path run;
                  ShowError "Error"
                    ("Failed to generate PDF: " ++ e)%string])
        end
  end.

(** ** Observations on a run *)

Definition is_show_page (c : cmd) : bool :=
  match c with ShowPage => true | _ => false end.

Definition is_draw_image (c : cmd) : bool :=
  match c with DrawImage _ _ _ _ _ => true | _ => false end.

Definition is_right_string (c : cmd) : bool :=
  match c with DrawRightString _ _ _ => true | _ => false end.

(** The number of pages a list of canvas calls closes. *)
Definition pages (cs : list cmd) : nat := List.length (filter is_show_page cs).

(** The height at which a call draws text. *)
Definition text_y (c : cmd) : option float :=
  match c with
  | DrawString _ y _ | DrawRightString _ y _ => Some y
  | _ => None
  end.

(** The canvas calls of the item loop alone. *)
Definition row_calls (its : list item) : list cmd :=
  snd (draw_items its (table_top - 10) 0).

(** The subtotal the item loop of [generate_pdf] ends with. *)
Definition pdf_subtotal (its : list item) : float :=
  snd (fst (draw_items its (table_top - 10) 0)).

(** The number of lines the rows take, wrapped lines included. *)
Definition total_lines (its : list item) : nat :=
  fold_right (fun it n => (List.length (wrap (desc it)) + n)%nat) 0%nat its.



(** The nine calls of a totals block whose first line sits at [y]. *)
Definition totals_rows (y : float)
    (subtotal_text discount_label discount_text total_text : string)
  : list cmd :=
  [SetFont "Helvetica-Bold" 10;
   DrawRightString (left_margin + 150 * mm) y "Subtotal:";
   DrawRightString right_margin y subtotal_text;
   SetFont "Helvetica" 10;
   DrawRightString (left_margin + 150 * mm) (y - 12) discount_label;
   DrawRightString right_margin (y - 12) discount_text;
   SetFont "Helvetica-Bold" 12;
   DrawRightString (left_margin + 150 * mm) (y - 12 - 12) "Total Due:";
   DrawRightString right_margin (y - 12 - 12) total_text].

(** The scenario of the specification: one item, quantity 2 at 100.00. *)
Definition consulting : item := Sample.consulting.

(** *** Pagination *)

(** The cursor and the number of pages closed after [n] emitted lines. *)
Fixpoint walk (n : nat) (y : float) : float * nat :=
  match n with
  | O => (y, 0%nat)
  | S n' =>
      let '(y1, brk) := advance y in
      let '(y2, k) := walk n' y1 in
      (y2, (pages brk + k)%nat)
  end.

Definition cursor_next (y : float) : float := fst (advance y).

Fixpoint cursor_path (n : nat) (y : float) : list float :=
  match n with
  | O => []
  | S n' => y :: cursor_path n' (cursor_next y)
  end.

(** Every height the cursor takes while rows are drawn: 46 on the first
    page, from [table_top - 10] down, and 56 on a later page, from
    [height - 40 * mm] down. *)
Definition cursors : list float := cursor_path 102 (table_top - 10).

(** The rows are taller than the first page's usable height: [n] lines of
    11 points against the distance from the first row to the low margin. *)
Definition page_overflow (n : nat) : bool :=
  table_top - 10 - 40 * mm <? 11 * float_of_Z (Z.of_nat n).

(** *** Wrapping *)

(** [ceil(n / k)] on naturals. *)
Definition ceil_div (n k : nat) : nat := ((n + k - 1) / k)%nat.

Definition is_left_string (c : cmd) : bool :=
  match c with DrawString _ _ _ => true | _ => false end.

(** The text a call draws. *)
Definition cmd_text (c : cmd) : string :=
  match c with
  | DrawString _ _ t | DrawRightString _ _ t => t
  | _ => EmptyString
  end.

(** *** The form with one field typed in *)

Definition with_qty_entry (st : InvoiceApp) (s : string) : InvoiceApp :=
  {| items := items st; logo_path := logo_path st;
     company_name_var := company_name_var st;
     company_addr_var := company_addr_var st;
     desc_entry := desc_entry st; qty_entry := s;
     unit_entry := unit_entry st; items_list := items_list st;
     discount_var := discount_var st; subtotal_lbl := subtotal_lbl st;
     total_lbl := total_lbl st |}.

Definition with_unit_entry (st : InvoiceApp) (s : string) : InvoiceApp :=
  {| items := items st; logo_path := logo_path st;
     company_name_var := company_name_var st;
     company_addr_var := company_addr_var st;
     desc_entry := desc_entry st; qty_entry := qty_entry st;
     unit_entry := s; items_list := items_list st;
     discount_var := discount_var st; subtotal_lbl := subtotal_lbl st;
     total_lbl := total_lbl st |}.

Definition with_discount_var (st : InvoiceApp) (s : string) : InvoiceApp :=
  {| items := items st; logo_path := logo_path st;
     company_name_var := company_name_var st;
     company_addr_var := company_addr_var st;
     desc_entry := desc_entry st; qty_entry := qty_entry st;
     unit_entry := unit_entry st; items_list := items_list st;
     discount_var := s; subtotal_lbl := subtotal_lbl st;
     total_lbl := total_lbl st |}.

(** The company record and the meta record [generate_invoice_pdf] builds. *)
Definition company_of (st : InvoiceApp) : company_info :=
  {| name := company_name_var st;
     address_lines := address_of (company_addr_var st);
     notes := "Thank you for your business!" |}.

Definition meta_of (w : world) : invoice_meta :=
  {| date := now_date w; invoice_no := now_stamp w |}.

(** The runs of [generate_pdf] among the events of a callback. *)
Fixpoint pdf_runs (evs : list event) : list (string * pdf_run) :=
  match evs with
  | [] => []
  | GeneratePdf path run :: rest => (path, run) :: pdf_runs rest
  | _ :: rest => pdf_runs rest
  end.

(** The logo cannot be drawn: no path, an empty path, a path to no file, a
    file PIL cannot open, an image of width zero, or an image that opens but
    whose pixels reportlab cannot read. *)
Definition logo_unusable (w : world) (logo : option string) : Prop :=
  match logo with
  | None => True
  | Some p =>
      p = EmptyString \/ path_exists w p = false
      \/ (exists e, image_open w p = inl e)
      \/ (exists img_h, image_open w p = inr (0%Z, img_h))
      \/ (exists e, draw_image_error w p = Some e)
  end.


(** No call in the list draws an image. *)
Definition no_image (cs : list cmd) : Prop :=
  Forall (fun c => is_draw_image c = false) cs.

(** A company whose notes have seven lines. *)
Definition seven_notes : company_info :=
  {| name := "Your Company"; address_lines := [];
     notes := String.concat (String newline EmptyString)
                ["1"; "2"; "3"; "4"; "5"; "6"; "7"]%string |}.

(** ** Subtotals *)

Lemma draw_items_subtotal (its : list item) :
  forall y s,
    snd (fst (draw_items its y s))
    = fold_left (fun acc it => acc + qty it * unit it) its s.
Proof.
  induction its as [|it rest IH]; intros y s; simpl.
  - reflexivity.
  - destruct (draw_lines _ _ _ _ _ _) as [y1 row].
    specialize (IH y1 (s + qty it * unit it)).
    destruct (draw_items rest y1 _) as [[y2 s2] more].
    simpl in *. exact IH.
Qed.



(** C10: the subtotal of the totals display and the subtotal the PDF loop
    accumulates are the same double for every item list, so the label of the
    form and the amount printed beside "Subtotal:" are the same two-decimal
    text. *)
Theorem ui_subtotal_matches_pdf (st : InvoiceApp) :
  pdf_subtotal (items st) = ui_subtotal (items st)
  /\ subtotal_lbl (update_totals st)
     = (format_2f (pdf_subtotal (items st)) ++ " " ++ CURRENCY)%string
  /\ forall w path ci logo d im,
       exists pre post y,
         calls (generate_pdf w path ci logo (items st) d im)
         = pre
           ++ [DrawRightString (left_margin + 150 * mm) y "Subtotal:";
               DrawRightString right_margin y
                 (format_2f (ui_subtotal (items st)))]
           ++ post.
Proof.
  assert (E : pdf_subtotal (items st) = ui_subtotal (items st)).
  { unfold pdf_subtotal, ui_subtotal. apply draw_items_subtotal. }
  split; [exact E|]. split.
  - rewrite E. reflexivity.
  - intros w path ci logo d im.
    unfold generate_pdf.
    destruct (draw_logo w logo) as [lg out].
    pose proof (draw_items_subtotal (items st) (table_top - 10) 0) as Hs.
    destruct (draw_items (items st) (table_top - 10) 0) as [[y s] rows].
    simpl in Hs. subst s.
    unfold draw_totals. cbv zeta. cbn [calls].
    eexists (lg ++ draw_company ci ++ draw_meta im ++ draw_table_header
             ++ [SetFont "Helvetica" 9] ++ rows ++ [SetFont "Helvetica-Bold" 10]).
    eexists. exists (y - 8).
    unfold ui_subtotal.
    repeat rewrite <- app_assoc. cbn [app]. reflexivity.
Qed.

(** ** Totals *)

Lemma generate_pdf_totals (w : world) (path : string) (ci : company_info)
    (logo : option string) (its : list item) (d : float) (im : invoice_meta) :
  exists pre post y,
    calls (generate_pdf w path ci logo its d im)
    = pre
      ++ totals_rows y (format_2f (pdf_subtotal its))
           ("Discount (" ++ str_of_float d ++ "%):")%string
           ("-" ++ format_2f (pdf_subtotal its * (d / 100)))%string
           (format_2f (pdf_subtotal its - pdf_subtotal its * (d / 100)))
      ++ post.
Proof.
  unfold generate_pdf, pdf_subtotal.
  destruct (draw_logo w logo) as [lg out].
  destruct (draw_items its (table_top - 10) 0) as [[y s] rows].
  unfold draw_totals. cbv zeta. cbn [calls fst snd].
  exists (lg ++ draw_company ci ++ draw_meta im ++ draw_table_header
          ++ [SetFont "Helvetica" 9] ++ rows).
  exists (draw_notes (y - 8 - 12 - 12) ci ++ [ShowPage; Save]).
  exists (y - 8).
  unfold totals_rows.
  repeat rewrite <- app_assoc. reflexivity.
Qed.



(** ** Pagination *)

Lemma pages_app (a b : list cmd) : pages (a ++ b) = (pages a + pages b)%nat.
Proof. unfold pages. rewrite filter_app, length_app. reflexivity. Qed.

Lemma pages_draw_line q u t li y line : pages (draw_line q u t li y line) = 0%nat.
Proof. unfold draw_line. destruct (li =? 0)%nat; reflexivity. Qed.

Lemma draw_lines_walk (lines : list string) :
  forall q u t li y,
    fst (draw_lines q u t li lines y) = fst (walk (List.length lines) y)
    /\ pages (snd (draw_lines q u t li lines y))
       = snd (walk (List.length lines) y).
Proof.
  induction lines as [|line rest IH]; intros q u t li y; simpl.
  - split; reflexivity.
  - destruct (advance y) as [y1 brk].
    specialize (IH q u t (S li) y1).
    destruct (draw_lines q u t (S li) rest y1) as [y2 more].
    destruct (walk (List.length rest) y1) as [y2' k].
    simpl in *. destruct IH as [-> <-]. split; [reflexivity|].
    rewrite !pages_app, pages_draw_line. reflexivity.
Qed.

Lemma walk_add (a b : nat) :
  forall y,
    walk (a + b) y
    = (fst (walk b (fst (walk a y))),
       (snd (walk a y) + snd (walk b (fst (walk a y))))%nat).
Proof.
  induction a as [|a IH]; intros y; simpl.
  - destruct (walk b y); reflexivity.
  - destruct (advance y) as [y1 brk]. rewrite IH.
    destruct (walk a y1) as [y2 k]. simpl.
    f_equal. apply Nat.add_assoc.
Qed.

Lemma draw_items_walk (its : list item) :
  forall y s,
    fst (fst (draw_items its y s)) = fst (walk (total_lines its) y)
    /\ pages (snd (draw_items its y s)) = snd (walk (total_lines its) y).
Proof.
  induction its as [|it rest IH]; intros y s; simpl.
  - split; reflexivity.
  - rewrite walk_add.
    pose proof (draw_lines_walk (wrap (desc it)) (qty it) (unit it)
                  (qty it * unit it) 0 y) as [Hy Hp].
    destruct (draw_lines _ _ _ _ _ y) as [y1 row]. simpl in Hy, Hp.
    specialize (IH y1 (s + qty it * unit it)).
    destruct (draw_items rest y1 _) as [[y2 s2] more].
    simpl in *. rewrite <- Hy. destruct IH as [IHy IHp].
    split; [exact IHy|]. rewrite pages_app. congruence.
Qed.

Lemma pages_draw_address x y ls : pages (draw_address x y ls) = 0%nat.
Proof. revert y. induction ls as [|l ls IH]; intros y; simpl; auto. apply IH. Qed.

Lemma pages_draw_note_lines y ls : pages (draw_note_lines y ls) = 0%nat.
Proof. revert y. induction ls as [|l ls IH]; intros y; simpl; auto. apply IH. Qed.

Lemma pages_draw_logo w logo : pages (fst (draw_logo w logo)) = 0%nat.
Proof.
  unfold draw_logo. destruct logo as [p|]; [|reflexivity].
  destruct (negb (is_empty p) && path_exists w p); [|reflexivity].
  unfold logo_attempt.
  destruct (image_open w p) as [e|[iw ih]]; [reflexivity|].
  destruct (logo_box iw ih) as [[tw th]|]; [|reflexivity].
  destruct (draw_image_error w p); reflexivity.
Qed.

Lemma pages_draw_notes y ci : pages (draw_notes y ci) = 0%nat.
Proof.
  unfold draw_notes. destruct (is_empty (notes ci)); [reflexivity|].
  cbn. apply pages_draw_note_lines.
Qed.

Lemma pages_draw_totals y s d : pages (snd (draw_totals y s d)) = 0%nat.
Proof. reflexivity. Qed.

Create Rewrite HintDb pages.
#[local] Hint Rewrite pages_app pages_draw_line pages_draw_address
  pages_draw_note_lines pages_draw_notes pages_draw_totals : pages.

(** The pages of a run: one per crossing of the low margin, and the last. *)
Lemma pages_generate_pdf w path ci logo its d im :
  pages (calls (generate_pdf w path ci logo its d im))
  = S (snd (walk (total_lines its) (table_top - 10))).
Proof.
  unfold generate_pdf.
  pose proof (pages_draw_logo w logo) as Hl.
  destruct (draw_logo w logo) as [lg out]. simpl in Hl.
  pose proof (draw_items_walk its (table_top - 10) 0) as [_ Hp].
  destruct (draw_items its (table_top - 10) 0) as [[y s] rows].
  simpl in Hp.
  pose proof (pages_draw_totals y s d) as Ht.
  destruct (draw_totals y s d) as [y' totals]. simpl in Ht.
  cbn [calls]. unfold draw_company.
  autorewrite with pages. rewrite Hl, Hp, Ht. cbn. lia.
Qed.

Lemma page_overflow_lines (n : nat) : page_overflow n = true -> (46 <= n)%nat.
Proof.
  intros H.
  destruct (Nat.lt_ge_cases n 46) as [Hlt|Hge]; [|exact Hge].
  exfalso.
  assert (Hall : forallb (fun k => negb (page_overflow k)) (seq 0 46) = true)
    by (vm_compute; reflexivity).
  rewrite forallb_forall in Hall.
  specialize (Hall n). rewrite H in Hall.
  discriminate Hall. apply in_seq. lia.
Qed.

Lemma walk_first_page_full (n : nat) :
  (46 <= n)%nat -> (1 <= snd (walk n (table_top - 10)))%nat.
Proof.
  intros H. replace n with (46 + (n - 46))%nat by lia.
  rewrite walk_add.
  replace (walk 46 (table_top - 10)) with (height - 40 * mm, 1%nat)
    by (vm_compute; reflexivity).
  simpl. lia.
Qed.

(** *** The heights of the rows *)

Lemma cursors_closed (y : float) : In y cursors -> In (cursor_next y) cursors.
Proof.
  intros H.
  assert (Hall : forallb (fun y => existsb (Leibniz.eqb (cursor_next y)) cursors)
                   cursors = true) by (vm_compute; reflexivity).
  rewrite forallb_forall in Hall. specialize (Hall y H).
  apply existsb_exists in Hall. destruct Hall as (z & Hz & E).
  apply Leibniz.eqb_spec in E. rewrite E. exact Hz.
Qed.

Lemma cursors_above_margin (y : float) :
  In y cursors -> (40 * mm <=? y) = true.
Proof.
  intros H.
  assert (Hall : forallb (fun y => 40 * mm <=? y) cursors = true)
    by (vm_compute; reflexivity).
  rewrite forallb_forall in Hall. exact (Hall y H).
Qed.

Lemma cursors_first_row : In (table_top - 10) cursors.
Proof. left. reflexivity. Qed.

Lemma text_y_draw_line q u t li y line c y' :
  In c (draw_line q u t li y line) -> text_y c = Some y' -> y' = y.
Proof.
  unfold draw_line. destruct (li =? 0)%nat; simpl; intros H E;
    repeat (destruct H as [<-|H]; [simpl in E; congruence|]); destruct H.
Qed.

Lemma text_y_advance y c y' : In c (snd (advance y)) -> text_y c = Some y' -> False.
Proof.
  unfold advance. destruct (y - 11 <? 40 * mm); simpl; [|intros []].
  intros [<-|[]] E. discriminate E.
Qed.

Lemma draw_lines_cursors (lines : list string) :
  forall q u t li y,
    In y cursors ->
    In (fst (draw_lines q u t li lines y)) cursors
    /\ forall c y', In c (snd (draw_lines q u t li lines y)) ->
                    text_y c = Some y' -> In y' cursors.
Proof.
  induction lines as [|line rest IH]; intros q u t li y Hy; simpl.
  - split; [exact Hy|]. intros c y' [].
  - pose proof (cursors_closed y Hy) as Hn. unfold cursor_next in Hn.
    pose proof (text_y_advance y) as Hb.
    destruct (advance y) as [y1 brk]. simpl in Hn, Hb.
    specialize (IH q u t (S li) y1 Hn).
    destruct (draw_lines q u t (S li) rest y1) as [y2 more].
    simpl in *. destruct IH as [IH1 IH2]. split; [exact IH1|].
    intros c y' Hc E.
    apply in_app_or in Hc. destruct Hc as [Hc|Hc].
    + rewrite (text_y_draw_line _ _ _ _ _ _ _ _ Hc E). exact Hy.
    + apply in_app_or in Hc. destruct Hc as [Hc|Hc].
      * destruct (Hb c y' Hc E).
      * exact (IH2 c y' Hc E).
Qed.

Lemma draw_items_cursors (its : list item) :
  forall y s,
    In y cursors ->
    In (fst (fst (draw_items its y s))) cursors
    /\ forall c y', In c (snd (draw_items its y s)) ->
                    text_y c = Some y' -> In y' cursors.
Proof.
  induction its as [|it rest IH]; intros y s Hy; simpl.
  - split; [exact Hy|]. intros c y' [].
  - pose proof (draw_lines_cursors (wrap (desc it)) (qty it) (unit it)
                  (qty it * unit it) 0 y Hy) as [H1 H2].
    destruct (draw_lines _ _ _ _ _ y) as [y1 row]. simpl in H1, H2.
    specialize (IH y1 (s + qty it * unit it) H1).
    destruct (draw_items rest y1 _) as [[y2 s2] more].
    simpl in *. destruct IH as [IH1 IH2]. split; [exact IH1|].
    intros c y' Hc E. apply in_app_or in Hc. destruct Hc as [Hc|Hc].
    + exact (H2 c y' Hc E).
    + exact (IH2 c y' Hc E).
Qed.

Lemma draw_lines_cons q u t li line rest y :
  draw_lines q u t li (line :: rest) y
  = (let '(y1, brk) := advance y in
     let '(y2, more) := draw_lines q u t (S li) rest y1 in
     (y2, draw_line q u t li y line ++ brk ++ more)).
Proof. reflexivity. Qed.

Lemma row_calls_in_run w path ci logo its d im :
  exists pre post,
    calls (generate_pdf w path ci logo its d im) = pre ++ row_calls its ++ post.
Proof.
  unfold generate_pdf, row_calls.
  destruct (draw_logo w logo) as [lg out].
  destruct (draw_items its (table_top - 10) 0) as [[y s] rows].
  destruct (draw_totals y s d) as [y' totals]. cbn [calls snd].
  exists (lg ++ draw_company ci ++ draw_meta im ++ draw_table_header
          ++ [SetFont "Helvetica" 9]).
  exists (totals ++ draw_notes y' ci ++ [ShowPage; Save]).
  repeat rewrite <- app_assoc. reflexivity.
Qed.

(** C3: when the rows are taller than the first page's usable height the run
    closes at least two pages; every text of every row, wrapped lines
    included, is drawn at a height not below [40 * mm]; and a line after
    which the cursor falls below [40 * mm] is followed by [showPage], the
    lines after it starting again from [height - 40 * mm]. *)
Theorem pagination (w : world) (path : string) (ci : company_info)
    (logo : option string) (its : list item) (d : float) (im : invoice_meta)
    (Hover : page_overflow (total_lines its) = true) :
  (2 <= pages (calls (generate_pdf w path ci logo its d im)))%nat
  /\ (exists pre post,
        calls (generate_pdf w path ci logo its d im)
        = pre ++ row_calls its ++ post)
  /\ (forall c y, In c (row_calls its) -> text_y c = Some y ->
                  (40 * mm <=? y) = true)
  /\ (forall q u t li line rest y,
        (y - 11 <? 40 * mm) = true ->
        draw_lines q u t li (line :: rest) y
        = (fst (draw_lines q u t (S li) rest (height - 40 * mm)),
           draw_line q u t li y line ++ [ShowPage]
           ++ snd (draw_lines q u t (S li) rest (height - 40 * mm))))
  /\ (forall q u t li line rest y,
        (y - 11 <? 40 * mm) = false ->
        draw_lines q u t li (line :: rest) y
        = (fst (draw_lines q u t (S li) rest (y - 11)),
           draw_line q u t li y line
           ++ snd (draw_lines q u t (S li) rest (y - 11)))).
Proof.
  split.
  { rewrite pages_generate_pdf.
    pose proof (walk_first_page_full _ (page_overflow_lines _ Hover)). lia. }
  split; [apply row_calls_in_run|].
  split.
  { intros c y Hc E. apply cursors_above_margin.
    exact (proj2 (draw_items_cursors its _ 0 cursors_first_row) c y Hc E). }
  split.
  - intros q u t li line rest y Hy. rewrite draw_lines_cons.
    unfold advance. rewrite Hy.
    destruct (draw_lines q u t (S li) rest (height - 40 * mm)); reflexivity.
  - intros q u t li line rest y Hy. rewrite draw_lines_cons.
    unfold advance. rewrite Hy.
    destruct (draw_lines q u t (S li) rest (y - 11)); reflexivity.
Qed.

(** ** Wrapping of descriptions *)

Lemma ceil_div_step (n k : nat) :
  (0 < k)%nat -> (0 < n)%nat -> ceil_div n k = S (ceil_div (n - k) k).
Proof.
  intros Hk Hn. unfold ceil_div.
  destruct (Nat.le_gt_cases n k) as [Hle|Hgt].
  - replace (n - k)%nat with 0%nat by lia.
    rewrite (Nat.div_small (0 + k - 1) k) by lia.
    replace (n + k - 1)%nat with ((n - 1) + 1 * k)%nat by lia.
    rewrite Nat.div_add by lia. rewrite Nat.div_small by lia. reflexivity.
  - replace (n + k - 1)%nat with ((n - k + k - 1) + 1 * k)%nat by lia.
    rewrite Nat.div_add by lia. lia.
Qed.

Lemma range_from_seq (fuel : nat) :
  forall start stop step,
    (0 < step)%nat -> (stop - start <= fuel)%nat ->
    range_from fuel start stop step
    = map (fun k => (start + k * step)%nat)
        (seq 0 (ceil_div (stop - start) step)).
Proof.
  induction fuel as [|fuel IH]; intros start stop step Hs Hf; simpl.
  - replace (stop - start)%nat with 0%nat by lia.
    unfold ceil_div. rewrite Nat.div_small by lia. reflexivity.
  - destruct (Nat.ltb_spec start stop) as [Hlt|Hge].
    + rewrite (ceil_div_step (stop - start) step) by lia.
      rewrite IH by lia.
      replace (stop - (start + step))%nat with (stop - start - step)%nat by lia.
      simpl. f_equal; [lia|].
      rewrite <- seq_shift, map_map.
      apply map_ext. intros k. simpl. lia.
    + replace (stop - start)%nat with 0%nat by lia.
      unfold ceil_div. rewrite Nat.div_small by lia. reflexivity.
Qed.

Lemma wrap_slices (d : string) :
  (0 < String.length d)%nat ->
  wrap d
  = map (fun k => substring (k * max_chars) max_chars d)
      (seq 0 (ceil_div (String.length d) max_chars)).
Proof.
  intros H. unfold wrap.
  destruct d as [|c d']; [simpl in H; lia|]. cbn [is_empty].
  unfold range. rewrite range_from_seq by (unfold max_chars; lia).
  rewrite Nat.sub_0_r, map_map. reflexivity.
Qed.

Lemma draw_lines_continuation q u t (lines : list string) :
  forall li y,
    (0 < li)%nat ->
    filter is_right_string (snd (draw_lines q u t li lines y)) = []
    /\ List.length (filter is_left_string (snd (draw_lines q u t li lines y)))
       = List.length lines.
Proof.
  induction lines as [|line rest IH]; intros li y Hli.
  - split; reflexivity.
  - rewrite draw_lines_cons.
    assert (Hb : filter is_right_string (snd (advance y)) = []
                 /\ filter is_left_string (snd (advance y)) = []).
    { unfold advance. destruct (y - 11 <? 40 * mm); split; reflexivity. }
    destruct (advance y) as [y1 brk]. simpl in Hb. destruct Hb as [Hb1 Hb2].
    specialize (IH (S li) y1 (Nat.lt_0_succ li)).
    destruct (draw_lines q u t (S li) rest y1) as [y2 more].
    simpl in IH. destruct IH as [IH1 IH2]. cbn [snd].
    unfold draw_line.
    destruct (Nat.eqb_spec li 0) as [E|_]; [lia|].
    rewrite !filter_app, Hb1, Hb2, IH1. cbn. rewrite IH2. split; reflexivity.
Qed.

Lemma wrap_not_nil (d : string) : wrap d <> [].
Proof.
  destruct d as [|c d']; [discriminate|].
  rewrite wrap_slices by (simpl; lia).
  rewrite (ceil_div_step _ max_chars) by (unfold max_chars; simpl; lia).
  discriminate.
Qed.

Lemma draw_lines_left_texts q u t (lines : list string) :
  forall li y,
    map cmd_text
      (filter is_left_string (snd (draw_lines q u t li lines y)))
    = lines.
Proof.
  induction lines as [|line rest IH]; intros li y; [reflexivity|].
  rewrite draw_lines_cons.
  assert (Hb : filter is_left_string (snd (advance y)) = []).
  { unfold advance. destruct (y - 11 <? 40 * mm); reflexivity. }
  destruct (advance y) as [y1 brk]. cbn [snd] in Hb.
  specialize (IH (S li) y1).
  destruct (draw_lines q u t (S li) rest y1) as [y2 more].
  cbn [snd] in *. rewrite !filter_app, Hb, !map_app, IH.
  unfold draw_line. destruct (li =? 0)%nat; reflexivity.
Qed.

Lemma draw_lines_right_texts q u t (line : string) (rest : list string) y :
  map cmd_text
    (filter is_right_string
       (snd (draw_lines q u t 0 (line :: rest) y)))
  = [str_of_float q; format_2f u; format_2f t].
Proof.
  rewrite draw_lines_cons.
  assert (Hb : filter is_right_string (snd (advance y)) = []).
  { unfold advance. destruct (y - 11 <? 40 * mm); reflexivity. }
  destruct (advance y) as [y1 brk]. cbn [snd] in Hb.
  pose proof (draw_lines_continuation q u t rest 1 y1
                Nat.lt_0_1) as [H1 _].
  destruct (draw_lines q u t 1 rest y1) as [y2 more].
  cbn [snd] in *. rewrite !filter_app, Hb, H1. reflexivity.
Qed.

Lemma draw_items_texts (its : list item) :
  forall y s,
    map cmd_text (filter is_left_string (snd (draw_items its y s)))
    = flat_map (fun it => wrap (desc it)) its
    /\ map cmd_text
         (filter is_right_string (snd (draw_items its y s)))
       = flat_map (fun it => [str_of_float (qty it); format_2f (unit it);
                              format_2f (qty it * unit it)]) its.
Proof.
  induction its as [|it rest IH]; intros y s; [split; reflexivity|].
  cbn [draw_items flat_map].
  pose proof (draw_lines_left_texts (qty it) (unit it) (qty it * unit it)
                (wrap (desc it)) 0 y) as Hl.
  assert (Hr : map cmd_text
                 (filter is_right_string
                    (snd (draw_lines (qty it) (unit it)
                            (qty it * unit it) 0 (wrap (desc it)) y)))
               = [str_of_float (qty it); format_2f (unit it);
                  format_2f (qty it * unit it)]).
  { pose proof (wrap_not_nil (desc it)) as Hne.
    destruct (wrap (desc it)) as [|line more]; [contradiction|].
    apply draw_lines_right_texts. }
  destruct (draw_lines _ _ _ 0 _ y) as [y1 row].
  specialize (IH y1 (s + qty it * unit it)).
  destruct (draw_items rest y1 _) as [[y2 s2] more].
  cbn [snd] in *. destruct IH as [IH1 IH2].
  rewrite !filter_app, !map_app, Hl, Hr, IH1, IH2. split; reflexivity.
Qed.

(** C4: a description of length [L > 0] is cut into [ceil(L / 50)] lines,
    line [k] being the slice of 50 characters that starts at [50 * k]; the
    empty description gives one blank line.  A row draws one left-aligned
    text per wrapped line, and these texts are the wrapped lines in order:
    the first is drawn with the quantity, the unit price and the line total
    right-aligned beside it, every later one is drawn alone.  The item loop
    of [generate_pdf] draws each item this way, one after the other, and its
    calls are part of the run. *)
Theorem wrap_line_count (d : string) (q u t y : float)
    (Hlen : (0 < String.length d)%nat) :
  List.length (wrap d) = ceil_div (String.length d) max_chars
  /\ (forall k, (k < ceil_div (String.length d) max_chars)%nat ->
        nth k (wrap d) "" = substring (k * max_chars) max_chars d)
  /\ wrap "" = [""]
  /\ (exists first rest,
        wrap d = first :: rest
        /\ filter is_right_string (snd (draw_lines q u t 0 (wrap d) y))
           = [DrawRightString (left_margin + 120 * mm) y (str_of_float q);
              DrawRightString (left_margin + 150 * mm) y (format_2f u);
              DrawRightString right_margin y (format_2f t)]
        /\ (forall y1,
              filter is_right_string (snd (draw_lines q u t 1 rest y1)) = [])
        /\ List.length
             (filter is_left_string (snd (draw_lines q u t 0 (wrap d) y)))
           = List.length (wrap d))
  /\ map cmd_text
       (filter is_left_string (snd (draw_lines q u t 0 (wrap d) y)))
     = wrap d
  /\ (forall li y1 line,
        (0 < li)%nat -> draw_line q u t li y1 line = [DrawString left_margin y1 line])
  /\ filter is_left_string (snd (draw_lines q u t 0 (wrap "") y))
     = [DrawString left_margin y ""]
  /\ (forall (rest : list item) (y0 s0 : float),
        snd (draw_items ({| desc := d; qty := q; unit := u |} :: rest) y0 s0)
        = snd (draw_lines q u (q * u) 0 (wrap d) y0)
          ++ snd (draw_items rest
                    (fst (draw_lines q u (q * u) 0 (wrap d) y0))
                    (s0 + q * u)))
  /\ (forall (w : world) (path : string) (ci : company_info)
             (logo : option string) (its : list item) (disc : float)
             (im : invoice_meta),
        map cmd_text (filter is_left_string (row_calls its))
        = flat_map (fun it => wrap (desc it)) its
        /\ map cmd_text (filter is_right_string (row_calls its))
           = flat_map (fun it => [str_of_float (qty it); format_2f (unit it);
                                  format_2f (qty it * unit it)]) its
        /\ exists pre post,
             calls (generate_pdf w path ci logo its disc im)
             = pre ++ row_calls its ++ post).
Proof.
  pose proof (wrap_slices d Hlen) as E.
  split; [rewrite E, length_map, length_seq; reflexivity|].
  split.
  { intros k Hk. rewrite E.
    rewrite (nth_indep _ "" (substring (0 * max_chars) max_chars d))
      by (rewrite length_map, length_seq; exact Hk).
    rewrite (map_nth (fun k => substring (k * max_chars) max_chars d)).
    rewrite seq_nth by exact Hk. reflexivity. }
  split; [reflexivity|].
  split.
  { pose proof (wrap_not_nil d) as Hne.
    destruct (wrap d) as [|first rest]; [contradiction|].
    exists first, rest. split; [reflexivity|].
    rewrite draw_lines_cons.
    assert (Hb : filter is_right_string (snd (advance y)) = []
                 /\ filter is_left_string (snd (advance y)) = []).
    { unfold advance. destruct (y - 11 <? 40 * mm); split; reflexivity. }
    destruct (advance y) as [y1 brk]. simpl in Hb. destruct Hb as [Hb1 Hb2].
    pose proof (draw_lines_continuation q u t rest 1 y1 Nat.lt_0_1) as [H1 H2].
    destruct (draw_lines q u t 1 rest y1) as [y2 more]. simpl in H1, H2.
    cbn [snd]. unfold draw_line. cbn [Nat.eqb].
    rewrite !filter_app, Hb1, Hb2, H1. cbn. rewrite H2.
    split; [reflexivity|]. split; [|reflexivity].
    intros y'. apply (draw_lines_continuation q u t rest 1 y' Nat.lt_0_1). }
  split; [apply draw_lines_left_texts|].
  split.
  { intros li y1 line Hli. unfold draw_line.
    destruct (Nat.eqb_spec li 0) as [E0|_]; [lia|reflexivity]. }
  split.
  { cbn [wrap is_empty]. rewrite draw_lines_cons.
    unfold advance. destruct (y - 11 <? 40 * mm); reflexivity. }
  split.
  { intros rest y0 s0. cbn [draw_items desc qty unit].
    destruct (draw_lines q u (q * u) 0 (wrap d) y0) as [y1 row].
    cbn [fst snd].
    destruct (draw_items rest y1 (s0 + q * u)) as [[y2 s2] more].
    reflexivity. }
  intros w path ci logo its disc im.
  destruct (draw_items_texts its (table_top - 10) 0) as [H1 H2].
  split; [exact H1|]. split; [exact H2|]. apply row_calls_in_run.
Qed.

(** ** Lenient parsing *)

Lemma float_or_zero_malformed (s : string) :
  float_of_string s = None -> float_or_zero s = 0.
Proof. intros H. unfold float_or_zero. rewrite H. reflexivity. Qed.

Lemma items_update_totals (st : InvoiceApp) : items (update_totals st) = items st.
Proof. reflexivity. Qed.

(** C5: a quantity, unit price or discount text that [float()] rejects
    counts as zero wherever the program parses it, and no callback fails:
    [add_item] stores 0 for the quantity or the unit price, [update_totals]
    applies a 0% discount, and [money] prints 0.00.  With items in the list
    and a path chosen in the save dialog, [generate_invoice_pdf] does run
    [generate_pdf], once, on that path with the discount 0.0, and then shows
    the box an ordinary run shows; no run of it has another discount. *)
Theorem malformed_number_is_zero (s : string) (st : InvoiceApp) (w : world)
    (Hbad : float_of_string s = None) :
  items (fst (add_item (with_qty_entry st s)))
  = (if is_empty (strip (desc_entry st)) then items st
     else items st
          ++ [{| desc := strip (desc_entry st); qty := 0;
                 unit := float_or_zero (unit_entry st) |}])
  /\ items (fst (add_item (with_unit_entry st s)))
     = (if is_empty (strip (desc_entry st)) then items st
        else items st
             ++ [{| desc := strip (desc_entry st);
                    qty := float_or_zero (qty_entry st); unit := 0 |}])
  /\ total_lbl (update_totals (with_discount_var st s))
     = money (PyFloat (ui_subtotal (items st)
                       - ui_subtotal (items st) * (0 / 100)))
  /\ (forall path run,
        In (path, run)
          (pdf_runs (snd (generate_invoice_pdf w (with_discount_var st s)))) ->
        run = generate_pdf w path (company_of st) (logo_path st) (items st) 0
                (meta_of w))
  /\ money (PyStr s) = (format_2f 0 ++ " " ++ CURRENCY)%string
  /\ money (PyStr s) = "0.00 USD"%string
  /\ (forall (it : item) (rest : list item),
        items st = it :: rest ->
        is_empty
          (asksaveasfilename w
             (DEFAULT_FILENAME_PREFIX ++ "_" ++ now_stamp w ++ ".pdf"))
        = false ->
        let path :=
          asksaveasfilename w
            (DEFAULT_FILENAME_PREFIX ++ "_" ++ now_stamp w ++ ".pdf")%string in
        let run :=
          generate_pdf w path (company_of st) (logo_path st) (items st) 0
            (meta_of w) in
        pdf_runs (snd (generate_invoice_pdf w (with_discount_var st s)))
        = [(path, run)]
        /\ snd (generate_invoice_pdf w (with_discount_var st s))
           = [AskSaveAs
                (DEFAULT_FILENAME_PREFIX ++ "_" ++ now_stamp w ++ ".pdf");
              GeneratePdf path run;
              match save_error w path with
              | None => ShowInfo "Saved" ("Invoice saved to: " ++ path)
              | Some e => ShowError "Error" ("Failed to generate PDF: " ++ e)
              end]%string)
  /\ snd (add_item (with_qty_entry st s))
     = (if is_empty (strip (desc_entry st))
        then [ShowWarning "Missing description"
                "Please enter an item description"]
        else [])
  /\ snd (add_item (with_unit_entry st s))
     = (if is_empty (strip (desc_entry st))
        then [ShowWarning "Missing description"
                "Please enter an item description"]
        else []).
Proof.
  pose proof (float_or_zero_malformed s Hbad) as Hz.
  split; [|split; [|split; [|split; [|split; [|split; [|split; [|split]]]]]]].
  - unfold add_item. cbn [desc_entry with_qty_entry qty_entry unit_entry items].
    rewrite Hz. destruct (is_empty (strip (desc_entry st))); reflexivity.
  - unfold add_item. cbn [desc_entry with_unit_entry qty_entry unit_entry items].
    rewrite Hz. destruct (is_empty (strip (desc_entry st))); reflexivity.
  - unfold update_totals.
    cbn [total_lbl with_discount_var discount_var items].
    rewrite Hz. reflexivity.
  - intros path run. unfold generate_invoice_pdf.
    cbn [with_discount_var discount_var items logo_path company_name_var
         company_addr_var].
    rewrite Hz. fold (company_of st). fold (meta_of w).
    destruct (items st) as [|it rest]; [intros []|].
    destruct (is_empty (asksaveasfilename w _)); [intros []|].
    destruct (raised _); simpl; intros [E|[]]; inversion E; reflexivity.
  - unfold money, py_float. rewrite Hbad. reflexivity.
  - unfold money, py_float. rewrite Hbad. vm_compute. reflexivity.
  - intros it rest Hitems Hsave. cbv zeta.
    assert (Hr : raised
                   (generate_pdf w
                      (asksaveasfilename w
                         (DEFAULT_FILENAME_PREFIX ++ "_" ++ now_stamp w
                          ++ ".pdf"))
                      (company_of st) (logo_path st) (items st) 0 (meta_of w))
                 = save_error w
                     (asksaveasfilename w
                        (DEFAULT_FILENAME_PREFIX ++ "_" ++ now_stamp w
                         ++ ".pdf"))).
    { unfold generate_pdf.
      destruct (draw_logo w (logo_path st)) as [lg out].
      destruct (draw_items (items st) (table_top - 10) 0) as [[y0 s0] rows].
      destruct (draw_totals y0 s0 0) as [y' totals]. reflexivity. }
    unfold generate_invoice_pdf.
    cbn [with_discount_var discount_var items logo_path company_name_var
         company_addr_var].
    rewrite Hz. fold (company_of st). fold (meta_of w).
    rewrite Hitems, <- Hitems. rewrite Hsave. rewrite Hr.
    destruct (save_error w _); split; reflexivity.
  - unfold add_item. cbn [desc_entry with_qty_entry].
    destruct (is_empty (strip (desc_entry st))); reflexivity.
  - unfold add_item. cbn [desc_entry with_unit_entry].
    destruct (is_empty (strip (desc_entry st))); reflexivity.
Qed.

(** ** The empty invoice *)

(** C8: with no item in the list, [generate_invoice_pdf] shows a warning and
    returns: the save dialog is not opened, [generate_pdf] is not run, and
    every attribute of the form is as before. *)
Theorem empty_invoice_rejected (w : world) (st : InvoiceApp)
    (Hempty : items st = []) :
  generate_invoice_pdf w st
  = (st, [ShowWarning "No items"
            "Add at least one item before generating invoice"])
  /\ pdf_runs (snd (generate_invoice_pdf w st)) = []
  /\ fst (generate_invoice_pdf w st) = st.
Proof.
  assert (E : generate_invoice_pdf w st
              = (st, [ShowWarning "No items"
                        "Add at least one item before generating invoice"])).
  { unfold generate_invoice_pdf. rewrite Hempty. reflexivity. }
  rewrite E. repeat split.
Qed.

(** ** The logo *)

(** When the logo cannot be drawn, the [try] is not entered or an exception
    leaves it. *)
Lemma logo_attempt_unusable (w : world) (p : string) :
  (exists e, image_open w p = inl e)
  \/ (exists img_h, image_open w p = inr (0%Z, img_h))
  \/ (exists e, draw_image_error w p = Some e) ->
  exists e, logo_attempt w p = inl e.
Proof.
  unfold logo_attempt. intros [[e Hp]|[[ih Hp]|[e Hp]]].
  - rewrite Hp. eauto.
  - rewrite Hp. replace (logo_box 0 ih) with (@None (float * float))
      by reflexivity. eauto.
  - rewrite Hp. destruct (image_open w p) as [e'|[iw ih]]; [eauto|].
    destruct (logo_box iw ih) as [[tw th]|]; eauto.
Qed.

Lemma draw_logo_unusable (w : world) (logo : option string) :
  logo_unusable w logo ->
  fst (draw_logo w logo) = []
  /\ (snd (draw_logo w logo) = []
      \/ exists e, snd (draw_logo w logo) = ["Logo load error: " ++ e]%string).
Proof.
  unfold logo_unusable, draw_logo.
  destruct logo as [p|]; [|intros _; split; [reflexivity|left; reflexivity]].
  intros [Hp|[Hp|Hp]].
  - subst p. split; [reflexivity|left; reflexivity].
  - rewrite Hp, andb_false_r. split; [reflexivity|left; reflexivity].
  - destruct (logo_attempt_unusable w p Hp) as [e He]. rewrite He.
    destruct (negb (is_empty p) && path_exists w p); cbn [fst snd].
    + split; [reflexivity|right; exists e; reflexivity].
    + split; [reflexivity|left; reflexivity].
Qed.

Lemma no_image_filter (cs : list cmd) :
  no_image cs -> filter is_draw_image cs = [].
Proof.
  induction 1 as [|c cs Hc _ IH]; [reflexivity|].
  simpl. rewrite Hc. exact IH.
Qed.

Lemma no_image_app (a b : list cmd) : no_image a -> no_image b -> no_image (a ++ b).
Proof. unfold no_image. intros Ha Hb. apply Forall_app. split; assumption. Qed.

Lemma no_image_draw_address x y ls : no_image (draw_address x y ls).
Proof.
  revert y. induction ls as [|l ls IH]; intros y; simpl.
  - constructor.
  - constructor; [reflexivity|apply IH].
Qed.

Lemma no_image_draw_note_lines y ls : no_image (draw_note_lines y ls).
Proof.
  revert y. induction ls as [|l ls IH]; intros y; simpl.
  - constructor.
  - constructor; [reflexivity|apply IH].
Qed.

Lemma no_image_draw_lines q u t (lines : list string) :
  forall li y, no_image (snd (draw_lines q u t li lines y)).
Proof.
  induction lines as [|line rest IH]; intros li y.
  - constructor.
  - rewrite draw_lines_cons.
    assert (Hb : no_image (snd (advance y))).
    { unfold advance. destruct (y - 11 <? 40 * mm); repeat constructor. }
    destruct (advance y) as [y1 brk]. specialize (IH (S li) y1).
    destruct (draw_lines q u t (S li) rest y1) as [y2 more].
    cbn [snd] in *. repeat apply no_image_app; try assumption.
    unfold draw_line. destruct (li =? 0)%nat; repeat constructor.
Qed.

Lemma no_image_draw_items (its : list item) :
  forall y s, no_image (snd (draw_items its y s)).
Proof.
  induction its as [|it rest IH]; intros y s; simpl.
  - constructor.
  - pose proof (no_image_draw_lines (qty it) (unit it) (qty it * unit it)
                  (wrap (desc it)) 0 y) as Hl.
    destruct (draw_lines _ _ _ _ _ y) as [y1 row].
    specialize (IH y1 (s + qty it * unit it)).
    destruct (draw_items rest y1 _) as [[y2 s2] more].
    cbn [snd] in *. apply no_image_app; assumption.
Qed.

Lemma no_image_without_logo w path ci its d im :
  no_image (calls (generate_pdf w path ci None its d im)).
Proof.
  unfold generate_pdf. cbn [draw_logo].
  pose proof (no_image_draw_items its (table_top - 10) 0) as Hr.
  destruct (draw_items its (table_top - 10) 0) as [[y s] rows].
  unfold draw_totals. cbv zeta. cbn [calls snd] in *.
  unfold draw_company, draw_meta, draw_table_header, draw_notes.
  destruct (is_empty (notes ci));
    repeat first
      [ assumption
      | apply no_image_draw_address
      | apply no_image_draw_note_lines
      | apply no_image_app
      | apply Forall_nil
      | apply Forall_cons; [reflexivity|] ].
Qed.

(** C7: when the logo path is absent or empty, names no file, or names a
    file that cannot be decoded ([Image.open] raises, the image has width
    zero, or the image opens and [c.drawImage] raises), [generate_pdf] draws
    no image and makes exactly the canvas calls it makes for an invoice
    without a logo.  The failure is not fatal: the only exception that can
    leave the run is the one of [c.save()], as in the run without a logo,
    and the logo block leaves at most one line, [Logo load error: ...], on
    standard output. *)
Theorem logo_failure_not_fatal (w : world) (path : string)
    (ci : company_info) (logo : option string) (its : list item) (d : float)
    (im : invoice_meta) (Hlogo : logo_unusable w logo) :
  calls (generate_pdf w path ci logo its d im)
  = calls (generate_pdf w path ci None its d im)
  /\ raised (generate_pdf w path ci logo its d im)
     = raised (generate_pdf w path ci None its d im)
  /\ filter is_draw_image (calls (generate_pdf w path ci logo its d im)) = []
  /\ raised (generate_pdf w path ci logo its d im) = save_error w path
  /\ (printed (generate_pdf w path ci logo its d im) = []
      \/ exists e,
           printed (generate_pdf w path ci logo its d im)
           = ["Logo load error: " ++ e]%string).
Proof.
  pose proof (draw_logo_unusable w logo Hlogo) as [Hl Hout].
  assert (E : calls (generate_pdf w path ci logo its d im)
              = calls (generate_pdf w path ci None its d im)).
  { unfold generate_pdf. cbn [draw_logo].
    destruct (draw_logo w logo) as [lg out]. simpl in Hl. subst lg.
    destruct (draw_items its (table_top - 10) 0) as [[y s] rows].
    destruct (draw_totals y s d) as [y' totals]. reflexivity. }
  assert (R : raised (generate_pdf w path ci logo its d im)
              = save_error w path
              /\ printed (generate_pdf w path ci logo its d im)
                 = snd (draw_logo w logo)).
  { unfold generate_pdf.
    destruct (draw_logo w logo) as [lg out].
    destruct (draw_items its (table_top - 10) 0) as [[y s] rows].
    destruct (draw_totals y s d) as [y' totals]. split; reflexivity. }
  destruct R as [R P].
  split; [exact E|]. split; [|split; [|split; [exact R|]]].
  - rewrite R. unfold generate_pdf. cbn [draw_logo].
    destruct (draw_items its (table_top - 10) 0) as [[y s] rows].
    destruct (draw_totals y s d) as [y' totals]. reflexivity.
  - rewrite E. apply no_image_filter, no_image_without_logo.
  - rewrite P. exact Hout.
Qed.

(** ** Totals and notes near the bottom of the page *)

Lemma generate_pdf_tail w path ci logo its d im :
  exists pre,
    calls (generate_pdf w path ci logo its d im)
    = pre
      ++ snd (draw_totals (fst (walk (total_lines its) (table_top - 10)))
                (pdf_subtotal its) d)
      ++ draw_notes
           (fst (draw_totals (fst (walk (total_lines its) (table_top - 10)))
                   (pdf_subtotal its) d)) ci
      ++ [ShowPage; Save].
Proof.
  unfold generate_pdf, pdf_subtotal.
  destruct (draw_logo w logo) as [lg out].
  pose proof (draw_items_walk its (table_top - 10) 0) as [Hy _].
  destruct (draw_items its (table_top - 10) 0) as [[y s] rows].
  cbn [fst snd] in *. subst y.
  destruct (draw_totals _ s d) as [y' totals]. cbn [calls fst snd].
  exists (lg ++ draw_company ci ++ draw_meta im ++ draw_table_header
          ++ [SetFont "Helvetica" 9] ++ rows).
  repeat rewrite <- app_assoc. reflexivity.
Qed.

(** C9: the totals block and the notes block close no page, whatever the
    cursor the rows leave, so a run closes one page more than its rows do;
    after 45 one-line rows the "Total Due:" line is drawn below [40 * mm],
    and with notes of seven lines the last of them is drawn below the bottom
    edge of the page. *)
Theorem totals_and_notes_unpaginated (w : world) (path : string)
    (ci : company_info) (logo : option string) (d : float)
    (im : invoice_meta) :
  (forall y s, pages (snd (draw_totals y s d)
                      ++ draw_notes (fst (draw_totals y s d)) ci) = 0%nat)
  /\ (forall its, pages (calls (generate_pdf w path ci logo its d im))
                  = S (pages (row_calls its)))
  /\ (exists y,
        In (DrawRightString (left_margin + 150 * mm) y "Total Due:")
          (calls (generate_pdf w path ci logo (repeat consulting 45) d im))
        /\ (y <? 40 * mm) = true)
  /\ (exists y,
        In (DrawString left_margin y "7")
          (calls (generate_pdf w path seven_notes logo
                    (repeat consulting 45) d im))
        /\ (y <? 0) = true).
Proof.
  split.
  { intros y s. rewrite pages_app, pages_draw_notes. reflexivity. }
  split.
  { intros its. rewrite pages_generate_pdf. f_equal. unfold row_calls.
    symmetry. apply draw_items_walk. }
  assert (Hy : fst (walk (total_lines (repeat consulting 45)) (table_top - 10))
               = table_top - 10 - 11 - 11 - 11 - 11 - 11 - 11 - 11 - 11 - 11
                 - 11 - 11 - 11 - 11 - 11 - 11 - 11 - 11 - 11 - 11 - 11 - 11
                 - 11 - 11 - 11 - 11 - 11 - 11 - 11 - 11 - 11 - 11 - 11 - 11
                 - 11 - 11 - 11 - 11 - 11 - 11 - 11 - 11 - 11 - 11 - 11 - 11)
    by (vm_compute; reflexivity).
  split.
  - destruct (generate_pdf_tail w path ci logo (repeat consulting 45) d im)
      as [pre E].
    rewrite E, Hy. eexists. split.
    + apply in_or_app. right. apply in_or_app. left.
      unfold draw_totals. cbv zeta. cbn [snd].
      apply in_or_app. right. apply in_or_app. right.
      right. left. reflexivity.
    + vm_compute. reflexivity.
  - destruct (generate_pdf_tail w path seven_notes logo (repeat consulting 45)
                d im) as [pre E].
    rewrite E, Hy. eexists. split.
    + apply in_or_app. right. apply in_or_app. right. apply in_or_app. left.
      unfold draw_totals, draw_notes. cbv zeta. cbn [fst].
      replace (is_empty (notes seven_notes)) with false by reflexivity.
      replace (split_lines (notes seven_notes))
        with ["1"; "2"; "3"; "4"; "5"; "6"; "7"]%string
        by (vm_compute; reflexivity).
      cbn [draw_note_lines In].
      do 9 right. left. reflexivity.
    + vm_compute. reflexivity.
Qed.

(** ** The discount on the two paths *)

Lemma negative_not_positive (d : float) : (d <? 0) = true -> (0 <? d) = false.
Proof.
  rewrite !ltb_spec.
  replace (Prim2SF 0) with (S754_zero false) by reflexivity.
  destruct (Prim2SF d) as [s| s| |s m e]; simpl; try discriminate;
    destruct s; simpl; intros H; try discriminate; reflexivity.
Qed.

(** C2 (as the code behaves): a discount text that parses to a negative
    number is clamped to 0 by [update_totals], so the form shows the subtotal
    as the total, while [generate_invoice_pdf] hands the negative number
    itself to [generate_pdf], whose totals block prints the discount and the
    total due computed from it. *)
Theorem negative_discount_reaches_pdf (w : world) (st : InvoiceApp)
    (d : float) (it : item) (rest : list item)
    (Hparse : float_of_string (discount_var st) = Some d)
    (Hneg : (d <? 0) = true)
    (Hitems : items st = it :: rest)
    (Hsave : is_empty
               (asksaveasfilename w
                  (DEFAULT_FILENAME_PREFIX ++ "_" ++ now_stamp w ++ ".pdf"))
             = false) :
  let sub := ui_subtotal (items st) in
  let path :=
    asksaveasfilename w
      (DEFAULT_FILENAME_PREFIX ++ "_" ++ now_stamp w ++ ".pdf")%string in
  total_lbl (update_totals st)
  = (format_2f (sub - sub * (0 / 100)) ++ " " ++ CURRENCY)%string
  /\ pdf_runs (snd (generate_invoice_pdf w st))
     = [(path,
         generate_pdf w path (company_of st) (logo_path st) (items st) d
           (meta_of w))]
  /\ exists pre post y,
       calls (generate_pdf w path (company_of st) (logo_path st) (items st) d
                (meta_of w))
       = pre
         ++ totals_rows y (format_2f sub)
              ("Discount (" ++ str_of_float d ++ "%):")%string
              ("-" ++ format_2f (sub * (d / 100)))%string
              (format_2f (sub - sub * (d / 100)))
         ++ post.
Proof.
  cbv zeta. split; [|split].
  - unfold update_totals. cbn [total_lbl].
    unfold float_or_zero. rewrite Hparse.
    unfold py_max. rewrite (negative_not_positive d Hneg). reflexivity.
  - unfold generate_invoice_pdf. rewrite Hitems, <- Hitems.
    unfold float_or_zero. rewrite Hparse.
    fold (company_of st). fold (meta_of w).
    rewrite Hsave.
    destruct (raised _); reflexivity.
  - replace (ui_subtotal (items st)) with (pdf_subtotal (items st))
      by apply draw_items_subtotal.
    apply generate_pdf_totals.
Qed.

End Program.

(** ** The box of the logo *)

Section LogoFacts.
Local Open Scope Q_scope.





Local Close Scope Q_scope.
Local Open Scope float_scope.







End LogoFacts.

(** ** Worked instances *)

Lemma pagination_holds_for_46_rows :
  page_overflow (total_lines (repeat Sample.consulting 46)) = true
  /\ (2 <= pages (calls (generate_pdf Sample.str_of_float Sample.quiet
                           "invoice.pdf" Sample.company None
                           (repeat Sample.consulting 46) 0%float
                           Sample.meta)))%nat.
Proof.
  assert (H : page_overflow (total_lines (repeat Sample.consulting 46)) = true)
    by (vm_compute; reflexivity).
  split; [exact H|].
  exact (proj1 (pagination Sample.str_of_float Sample.quiet "invoice.pdf"
                  Sample.company None (repeat Sample.consulting 46) 0%float
                  Sample.meta H)).
Defined.

Lemma long_description_wraps_in_three :
  (0 < String.length Sample.long_description)%nat
  /\ List.length (wrap Sample.long_description) = 3%nat.
Proof.
  assert (H : (0 < String.length Sample.long_description)%nat)
    by (vm_compute; lia).
  split; [exact H|].
  exact (proj1 (wrap_line_count Sample.str_of_float Sample.long_description
                  2%float 100%float 200%float (table_top - 10)%float H)).
Defined.

Lemma malformed_text_counts_as_zero :
  Sample.float_of_string "abc" = None
  /\ total_lbl
       (update_totals Sample.float_of_string
          (with_discount_var (Sample.form [Sample.consulting] "10") "abc"))
     = "200.00 USD"
  /\ pdf_runs
       (snd (generate_invoice_pdf Sample.float_of_string Sample.str_of_float
               Sample.quiet
               (with_discount_var (Sample.form [Sample.consulting] "10")
                  "abc")))
     = [("invoice_20250101120000.pdf",
         generate_pdf Sample.str_of_float Sample.quiet
           "invoice_20250101120000.pdf"
           (company_of (Sample.form [Sample.consulting] "10")) None
           [Sample.consulting] 0%float (meta_of Sample.quiet))].
Proof.
  assert (H : Sample.float_of_string "abc" = None) by reflexivity.
  pose (T := malformed_number_is_zero Sample.float_of_string
               Sample.str_of_float "abc"
               (Sample.form [Sample.consulting] "10") Sample.quiet H).
  split; [exact H|]. split.
  - exact (proj1 (proj2 (proj2 T))).
  - exact (proj1 (proj1 (proj2 (proj2 (proj2 (proj2 (proj2 (proj2 T))))))
                    Sample.consulting [] eq_refl eq_refl)).
Defined.


Lemma undecodable_logo_is_skipped :
  logo_unusable Sample.broken_logo (Some "logo.png")
  /\ logo_unusable Sample.truncated_logo (Some "logo.png")
  /\ calls (generate_pdf Sample.str_of_float Sample.broken_logo "invoice.pdf"
              Sample.company (Some "logo.png") [Sample.consulting] 10%float
              Sample.meta)
     = calls (generate_pdf Sample.str_of_float Sample.broken_logo
                "invoice.pdf" Sample.company None [Sample.consulting]
                10%float Sample.meta)
  /\ calls (generate_pdf Sample.str_of_float Sample.truncated_logo
              "invoice.pdf" Sample.company (Some "logo.png")
              [Sample.consulting] 10%float Sample.meta)
     = calls (generate_pdf Sample.str_of_float Sample.truncated_logo
                "invoice.pdf" Sample.company None [Sample.consulting]
                10%float Sample.meta).
Proof.
  assert (H : logo_unusable Sample.broken_logo (Some "logo.png")).
  { right. right. left. exists "cannot identify image file". reflexivity. }
  assert (H' : logo_unusable Sample.truncated_logo (Some "logo.png")).
  { right. right. right. right. exists "image file is truncated".
    reflexivity. }
  split; [exact H|]. split; [exact H'|]. split.
  - exact (proj1 (logo_failure_not_fatal Sample.str_of_float
                    Sample.broken_logo "invoice.pdf" Sample.company
                    (Some "logo.png") [Sample.consulting] 10%float
                    Sample.meta H)).
  - exact (proj1 (logo_failure_not_fatal Sample.str_of_float
                    Sample.truncated_logo "invoice.pdf" Sample.company
                    (Some "logo.png") [Sample.consulting] 10%float
                    Sample.meta H')).
Defined.

Lemma empty_form_is_rejected :
  items (Sample.form [] "10") = []
  /\ generate_invoice_pdf Sample.float_of_string Sample.str_of_float
       Sample.quiet (Sample.form [] "10")
     = (Sample.form [] "10",
        [ShowWarning "No items"
           "Add at least one item before generating invoice"]).
Proof.
  assert (H : items (Sample.form [] "10") = []) by reflexivity.
  split; [exact H|].
  exact (proj1 (empty_invoice_rejected Sample.float_of_string
                  Sample.str_of_float Sample.quiet (Sample.form [] "10") H)).
Defined.

Lemma minus_ten_percent_on_both_paths :
  Sample.float_of_string "-10" = Some (-10)%float
  /\ total_lbl
       (update_totals Sample.float_of_string
          (Sample.form [Sample.consulting] "-10"))
     = "200.00 USD"
  /\ exists pre post y,
       calls (generate_pdf Sample.str_of_float Sample.quiet
                "invoice_20250101120000.pdf"
                (company_of (Sample.form [Sample.consulting] "-10")) None
                [Sample.consulting] (-10)%float (meta_of Sample.quiet))
       = (pre
          ++ totals_rows y "200.00" "Discount (-10.0%):" "--20.00" "220.00"
          ++ post)%list.
Proof.
  assert (Hp : Sample.float_of_string
                 (discount_var (Sample.form [Sample.consulting] "-10"))
               = Some (-10)%float) by reflexivity.
  assert (Hn : ((-10) <? 0)%float = true) by reflexivity.
  assert (Hi : items (Sample.form [Sample.consulting] "-10")
               = Sample.consulting :: []) by reflexivity.
  assert (Hs : is_empty
                 (asksaveasfilename Sample.quiet
                    (DEFAULT_FILENAME_PREFIX ++ "_" ++ now_stamp Sample.quiet
                     ++ ".pdf"))
               = false) by reflexivity.
  destruct (negative_discount_reaches_pdf Sample.float_of_string
              Sample.str_of_float Sample.quiet
              (Sample.form [Sample.consulting] "-10") (-10)%float
              Sample.consulting [] Hp Hn Hi Hs) as (Hlbl & _ & Hrows).
  split; [exact Hp|]. split; [exact Hlbl|]. exact Hrows.
Defined.

(** * The rest of the form: the remaining callbacks and the form as a
      state machine *)

(** [del lst[idx]] for an index in range; the list box ignores a [delete]
    whose index is past its last row, which is what this gives there. *)
Definition remove_at {A : Type} (idx : nat) (l : list A) : list A :=
  firstn idx l ++ skipn (S idx) l.

(** The texts of a list of lines put end to end. *)
Definition join (ls : list string) : string :=
  fold_right String.append EmptyString ls.

(** Every character of the string is white space. *)
Fixpoint all_space (s : string) : bool :=
  match s with
  | EmptyString => true
  | String c rest => is_space c && all_space rest
  end.

Fixpoint has_newline (s : string) : bool :=
  match s with
  | EmptyString => false
  | String c rest => Ascii.eqb c newline || has_newline rest
  end.

Section Callbacks.

Variable float_of_string : string -> option float.
Variable str_of_float : float -> string.
(** [os.path.basename] *)
Variable basename : string -> string.

Set Default Proof Using "Type".

(** Lines 163-230: the attributes [__init__] sets. *)
Definition initial : InvoiceApp :=
  {| items := [];
     logo_path := None;
     company_name_var := "Your Company";
     company_addr_var := "123 Business St, City";
     desc_entry := "";
     qty_entry := "";
     unit_entry := "";
     items_list := [];
     discount_var := "0";
     subtotal_lbl := money float_of_string (PyInt 0);
     total_lbl := money float_of_string (PyInt 0) |}.

(** Lines 238-242; [chosen] is what [askopenfilename] returns, the empty
    string when the dialog is cancelled. *)
Definition load_logo (chosen : string) (st : InvoiceApp)
  : InvoiceApp * list event :=
  if is_empty chosen then (st, [])
  else
    ({| items := items st;
        logo_path := Some chosen;
        company_name_var := company_name_var st;
        company_addr_var := company_addr_var st;
        desc_entry := desc_entry st;
        qty_entry := qty_entry st;
        unit_entry := unit_entry st;
        items_list := items_list st;
        discount_var := discount_var st;
        subtotal_lbl := subtotal_lbl st;
        total_lbl := total_lbl st |},
     [ShowInfo "Logo loaded" ("Logo loaded: " ++ basename chosen)]).

(** Lines 264-271; [sel] is what [curselection] returns.  [None] is the
    [IndexError] of [del self.items[idx]]. *)
Definition remove_selected (sel : list nat) (st : InvoiceApp)
  : option InvoiceApp :=
  match sel with
  | [] => Some st
  | idx :: _ =>
      if (idx <? List.length (items st))%nat then
        Some (update_totals float_of_string
                {| items := remove_at idx (items st);
                   logo_path := logo_path st;
                   company_name_var := company_name_var st;
                   company_addr_var := company_addr_var st;
                   desc_entry := desc_entry st;
                   qty_entry := qty_entry st;
                   unit_entry := unit_entry st;
                   items_list := remove_at idx (items_list st);
                   discount_var := discount_var st;
                   subtotal_lbl := subtotal_lbl st;
                   total_lbl := total_lbl st |})
      else None
  end.

(** Lines 273-277; [answer] is what [askyesno] returns. *)
Definition clear_items (answer : bool) (st : InvoiceApp) : InvoiceApp :=
  if answer then
    update_totals float_of_string
      {| items := [];
         logo_path := logo_path st;
         company_name_var := company_name_var st;
         company_addr_var := company_addr_var st;
         desc_entry := desc_entry st;
         qty_entry := qty_entry st;
         unit_entry := unit_entry st;
         items_list := [];
         discount_var := discount_var st;
         subtotal_lbl := subtotal_lbl st;
         total_lbl := total_lbl st |}
  else st.

(** What the user can do to the form: type in an entry, or press a button,
    with what the dialog or the list box answers. *)
Inductive action :=
| TypeCompanyName (s : string)
| TypeCompanyAddr (s : string)
| TypeDesc (s : string)
| TypeQty (s : string)
| TypeUnit (s : string)
| TypeDiscount (s : string)
| ClickLoadLogo (chosen : string)
| ClickAddItem
| ClickRemoveSelected (sel : list nat)
| ClickClearItems (answer : bool)
| ClickCalculateTotals
| ClickGeneratePdf (w : world).

Definition with_desc_entry (st : InvoiceApp) (s : string) : InvoiceApp :=
  {| items := items st; logo_path := logo_path st;
     company_name_var := company_name_var st;
     company_addr_var := company_addr_var st;
     desc_entry := s; qty_entry := qty_entry st;
     unit_entry := unit_entry st; items_list := items_list st;
     discount_var := discount_var st; subtotal_lbl := subtotal_lbl st;
     total_lbl := total_lbl st |}.

Definition with_company (st : InvoiceApp) (n a : string) : InvoiceApp :=
  {| items := items st; logo_path := logo_path st;
     company_name_var := n; company_addr_var := a;
     desc_entry := desc_entry st; qty_entry := qty_entry st;
     unit_entry := unit_entry st; items_list := items_list st;
     discount_var := discount_var st; subtotal_lbl := subtotal_lbl st;
     total_lbl := total_lbl st |}.

(** One action on the form; [None] when the callback raises. *)
Definition step (a : action) (st : InvoiceApp) : option InvoiceApp :=
  match a with
  | TypeCompanyName s => Some (with_company st s (company_addr_var st))
  | TypeCompanyAddr s => Some (with_company st (company_name_var st) s)
  | TypeDesc s => Some (with_desc_entry st s)
  | TypeQty s => Some (with_qty_entry st s)
  | TypeUnit s => Some (with_unit_entry st s)
  | TypeDiscount s => Some (with_discount_var st s)
  | ClickLoadLogo chosen => Some (fst (load_logo chosen st))
  | ClickAddItem => Some (fst (add_item float_of_string str_of_float st))
  | ClickRemoveSelected sel => remove_selected sel st
  | ClickClearItems answer => Some (clear_items answer st)
  | ClickCalculateTotals => Some (update_totals float_of_string st)
  | ClickGeneratePdf w =>
      Some (fst (generate_invoice_pdf float_of_string str_of_float w st))
  end.

(** The states the form can be in: the initial one and those an action
    leads to from one of them. *)
Inductive reachable : InvoiceApp -> Prop :=
| reachable_initial : reachable initial
| reachable_step a st st' :
    reachable st -> step a st = Some st' -> reachable st'.

(** A list box row describes an item: the description, the quantity as it
    was typed ([0] when it did not parse), the unit price and the line
    total. *)
Definition describes (it : item) (label : string) : Prop :=
  exists q_text,
    label
    = (desc it ++ " " ++ em_dash ++ " " ++ q_text ++ " " ++ times_sign ++ " "
       ++ format_2f (unit it) ++ " = " ++ format_2f (qty it * unit it))%string
    /\ (q_text = str_of_float (qty it)
        \/ (q_text = "0"%string /\ qty it = 0%float)).

End Callbacks.

(** ** Invariants of the form *)

Section FormInvariants.

Variable float_of_string : string -> option float.
Variable str_of_float : float -> string.
Variable basename : string -> string.

Set Default Proof Using "Type".

Local Open Scope float_scope.
Local Open Scope list_scope.

(** What every reachable form satisfies: the list box rows describe the
    items in order, no item has an empty description, and the subtotal label
    shows the subtotal of the items. *)
Definition form_ok (st : InvoiceApp) : Prop :=
  Forall2 (describes str_of_float) (items st) (items_list st)
  /\ Forall (fun it => is_empty (desc it) = false) (items st)
  /\ subtotal_lbl st
     = (format_2f (ui_subtotal (items st)) ++ " " ++ CURRENCY)%string.

Lemma remove_at_Forall2 {A B : Type} (R : A -> B -> Prop) (idx : nat) :
  forall l l', Forall2 R l l' -> Forall2 R (remove_at idx l) (remove_at idx l').
Proof.
  unfold remove_at. induction idx as [|idx IH]; intros l l' H.
  - destruct H as [|x y l l' Hxy H]; simpl; [constructor|exact H].
  - destruct H as [|x y l l' Hxy H]; simpl; [constructor|].
    constructor; [exact Hxy|]. apply (IH l l' H).
Qed.

Lemma remove_at_Forall {A : Type} (P : A -> Prop) (idx : nat) :
  forall l, Forall P l -> Forall P (remove_at idx l).
Proof.
  unfold remove_at. induction idx as [|idx IH]; intros l H.
  - destruct H as [|x l Hx H]; simpl; [constructor|exact H].
  - destruct H as [|x l Hx H]; simpl; [constructor|].
    constructor; [exact Hx|]. apply (IH l H).
Qed.

Lemma remove_at_length {A : Type} (idx : nat) :
  forall l : list A,
    (idx < List.length l)%nat ->
    List.length (remove_at idx l) = (List.length l - 1)%nat.
Proof.
  unfold remove_at. intros l H.
  rewrite length_app, length_firstn, length_skipn. lia.
Qed.

Lemma remove_at_last {A : Type} (l : list A) (x : A) :
  remove_at (List.length l) (l ++ [x]) = l.
Proof.
  unfold remove_at.
  rewrite skipn_all2 by (rewrite length_app; simpl; lia).
  rewrite firstn_app, Nat.sub_diag, firstn_all. simpl.
  rewrite !app_nil_r. reflexivity.
Qed.

Lemma row_label_describes (d qty_text unit_text : string) :
  describes str_of_float
    {| desc := d; qty := float_or_zero float_of_string qty_text;
       unit := float_or_zero float_of_string unit_text |}
    (row_label float_of_string str_of_float d qty_text unit_text).
Proof.
  unfold describes, row_label, float_or_zero. cbn [desc qty unit].
  destruct (float_of_string qty_text) as [f|].
  - exists (str_of_float f). split; [reflexivity|left; reflexivity].
  - exists "0"%string. split; [reflexivity|right; split; reflexivity].
Qed.

Lemma generate_invoice_pdf_state (w : world) (st : InvoiceApp) :
  fst (generate_invoice_pdf float_of_string str_of_float w st) = st.
Proof.
  unfold generate_invoice_pdf.
  destruct (items st); [reflexivity|].
  destruct (is_empty _); [reflexivity|].
  destruct (raised _); reflexivity.
Qed.

Lemma form_ok_initial : form_ok (initial float_of_string).
Proof.
  unfold form_ok, initial. cbn [items items_list subtotal_lbl].
  split; [constructor|]. split; [constructor|]. reflexivity.
Qed.

Lemma form_ok_update_totals (st : InvoiceApp) :
  Forall2 (describes str_of_float) (items st) (items_list st) ->
  Forall (fun it => is_empty (desc it) = false) (items st) ->
  form_ok (update_totals float_of_string st).
Proof.
  intros H1 H2. unfold form_ok, update_totals.
  cbn [items items_list subtotal_lbl]. repeat split; assumption.
Qed.

Lemma form_ok_step (a : action) (st st' : InvoiceApp) :
  form_ok st -> step float_of_string str_of_float basename a st = Some st' ->
  form_ok st'.
Proof.
  intros (H1 & H2 & H3) Hs.
  destruct a; simpl in Hs;
    try (injection Hs as <-; repeat split; assumption).
  - (* load logo *)
    injection Hs as <-. unfold load_logo.
    destruct (is_empty chosen); repeat split; assumption.
  - (* add item *)
    injection Hs as <-. unfold add_item.
    destruct (is_empty (strip (desc_entry st))) eqn:Hd;
      [repeat split; assumption|].
    cbn [fst]. apply form_ok_update_totals; cbn [items items_list].
    + apply Forall2_app; [exact H1|].
      constructor; [apply row_label_describes|constructor].
    + apply Forall_app. split; [exact H2|].
      constructor; [exact Hd|constructor].
  - (* remove selected *)
    unfold remove_selected in Hs. destruct sel as [|idx more].
    + injection Hs as <-. repeat split; assumption.
    + destruct (idx <? List.length (items st))%nat; [|discriminate].
      injection Hs as <-.
      apply form_ok_update_totals; cbn [items items_list].
      * apply remove_at_Forall2, H1.
      * apply remove_at_Forall, H2.
  - (* clear items *)
    injection Hs as <-. unfold clear_items. destruct answer.
    + apply form_ok_update_totals; cbn [items items_list]; constructor.
    + repeat split; assumption.
  - (* generate *)
    injection Hs as <-. rewrite generate_invoice_pdf_state.
    repeat split; assumption.
Qed.

Lemma reachable_form_ok (st : InvoiceApp) :
  reachable float_of_string str_of_float basename st -> form_ok st.
Proof.
  induction 1 as [|a st st' _ IH Hs].
  - apply form_ok_initial.
  - exact (form_ok_step a st st' IH Hs).
Qed.

(** X1: the list box mirrors the item list: in every state the form can reach,
    row [i] of the list box describes item [i], so the two have the same
    length. *)
Theorem listbox_mirrors_items (st : InvoiceApp)
    (Hreach : reachable float_of_string str_of_float basename st) :
  Forall2 (describes str_of_float) (items st) (items_list st)
  /\ List.length (items st) = List.length (items_list st).
Proof.
  destruct (reachable_form_ok st Hreach) as (H & _ & _).
  split; [exact H|]. exact (Forall2_length H).
Qed.

(** X2: no item of a reachable form has an empty description, so the PDF never
    takes the blank-line branch of the wrapping for it. *)
Theorem stored_descriptions_not_empty (st : InvoiceApp)
    (Hreach : reachable float_of_string str_of_float basename st) :
  Forall (fun it => is_empty (desc it) = false
                    /\ wrap (desc it) <> [EmptyString]) (items st).
Proof.
  destruct (reachable_form_ok st Hreach) as (_ & H & _).
  apply Forall_forall. intros it Hin.
  rewrite Forall_forall in H. pose proof (H it Hin) as Hd.
  split; [exact Hd|].
  destruct (desc it) as [|c d'] eqn:E; [discriminate Hd|].
  intros Hw.
  assert (Hl : (0 < String.length (String c d'))%nat) by (simpl; lia).
  pose proof (wrap_slices (String c d') Hl) as Hs.
  rewrite Hw in Hs.
  rewrite (ceil_div_step _ max_chars) in Hs by (unfold max_chars; simpl; lia).
  simpl in Hs. injection Hs as Hs _. discriminate Hs.
Qed.

(** X3: in every reachable state the subtotal label shows the subtotal of the
    items currently in the list, whatever was typed since. *)
Theorem subtotal_label_up_to_date (st : InvoiceApp)
    (Hreach : reachable float_of_string str_of_float basename st) :
  subtotal_lbl st
  = (format_2f (ui_subtotal (items st)) ++ " " ++ CURRENCY)%string.
Proof.
  destruct (reachable_form_ok st Hreach) as (_ & _ & H). exact H.
Qed.

End FormInvariants.

(** ** The callbacks one by one *)

Section FormCallbacks.

Variable float_of_string : string -> option float.
Variable str_of_float : float -> string.
Variable basename : string -> string.

Set Default Proof Using "Type".

Local Open Scope float_scope.
Local Open Scope list_scope.

(** X4: [remove_selected] on a row the list box has: in a reachable state it
    does not raise, takes exactly that item and that row away, and leaves
    the subtotal label showing the subtotal of what remains; with nothing
    selected it changes nothing. *)
Theorem remove_selected_in_range (st : InvoiceApp) (idx : nat)
    (more : list nat)
    (Hreach : reachable float_of_string str_of_float basename st)
    (Hsel : (idx < List.length (items_list st))%nat) :
  (exists st',
     remove_selected float_of_string (idx :: more) st = Some st'
     /\ items st' = remove_at idx (items st)
     /\ items_list st' = remove_at idx (items_list st)
     /\ List.length (items st') = (List.length (items st) - 1)%nat
     /\ List.length (items_list st') = List.length (items st')
     /\ subtotal_lbl st'
        = (format_2f (ui_subtotal (remove_at idx (items st))) ++ " "
           ++ CURRENCY)%string)
  /\ remove_selected float_of_string [] st = Some st.
Proof.
  destruct (listbox_mirrors_items float_of_string str_of_float basename st
              Hreach) as [_ Hlen].
  split; [|reflexivity].
  unfold remove_selected.
  destruct (Nat.ltb_spec idx (List.length (items st))) as [Hlt|Hge]; [|lia].
  eexists. split; [reflexivity|].
  cbn [items items_list update_totals subtotal_lbl].
  repeat split.
  - apply remove_at_length, Hlt.
  - rewrite !remove_at_length by lia. lia.
Qed.

(** X5: adding an item and then removing the last row gives back the item list
    and the list box as they were, with the labels [update_totals] shows for
    them. *)
Theorem add_then_remove_last (st : InvoiceApp)
    (Hlen : List.length (items st) = List.length (items_list st))
    (Hdesc : is_empty (strip (desc_entry st)) = false) :
  exists st',
    remove_selected float_of_string [List.length (items_list st)]
      (fst (add_item float_of_string str_of_float st))
    = Some st'
    /\ items st' = items st
    /\ items_list st' = items_list st
    /\ subtotal_lbl st' = subtotal_lbl (update_totals float_of_string st)
    /\ total_lbl st' = total_lbl (update_totals float_of_string st).
Proof.
  unfold add_item. rewrite Hdesc. cbn [fst].
  unfold remove_selected, update_totals.
  cbn [items items_list discount_var subtotal_lbl total_lbl].
  rewrite length_app. cbn [List.length].
  destruct (Nat.ltb_spec (List.length (items_list st))
              (List.length (items st) + 1)) as [_|Hge]; [|lia].
  eexists. split; [reflexivity|].
  cbn [items items_list discount_var subtotal_lbl total_lbl].
  rewrite (remove_at_last (items_list st)).
  rewrite <- Hlen. rewrite (remove_at_last (items st)).
  repeat split; reflexivity.
Qed.

Lemma lstrip_all_space (s : string) : all_space s = true -> lstrip s = EmptyString.
Proof.
  induction s as [|c s IH]; simpl; [reflexivity|].
  intros H. apply andb_prop in H. destruct H as [Hc Hs].
  rewrite Hc. apply IH, Hs.
Qed.

(** X6: a description made of white space only is no description: [add_item]
    warns and leaves every attribute of the form, the three entries
    included, as it was, whatever the quantity and the unit price. *)
Theorem blank_description_rejected (st : InvoiceApp)
    (Hblank : all_space (desc_entry st) = true) :
  add_item float_of_string str_of_float st
  = (st, [ShowWarning "Missing description"
            "Please enter an item description"]).
Proof.
  unfold add_item, strip. rewrite (lstrip_all_space _ Hblank). reflexivity.
Qed.

(** *** Zero times a finite number *)

Lemma finite_cases (x : float) :
  is_finite x = true ->
  (exists s, Prim2SF x = S754_zero s) \/ (exists s m e, Prim2SF x = S754_finite s m e).
Proof.
  unfold is_finite, is_nan, is_infinity. intros H.
  apply negb_true_iff, orb_false_iff in H. destruct H as [Hn Hi].
  apply negb_false_iff in Hn.
  rewrite FloatAxioms.eqb_spec in Hn, Hi. rewrite FloatAxioms.abs_spec in Hi.
  replace (Prim2SF infinity) with (S754_infinity false) in Hi by reflexivity.
  destruct (Prim2SF x) as [s|s| |s m e].
  - left. exists s. reflexivity.
  - destruct s; discriminate Hi.
  - discriminate Hn.
  - right. exists s, m, e. reflexivity.
Qed.

Lemma zero_minus_zero_times (x : float) :
  is_finite x = true -> 0 - 0 * x = 0.
Proof.
  intros H. apply Prim2SF_inj.
  rewrite sub_spec, mul_spec.
  replace (Prim2SF 0) with (S754_zero false) by reflexivity.
  destruct (finite_cases x H) as [[s E]|(s & m & e & E)]; rewrite E;
    destruct s; reflexivity.
Qed.

(** X7: [clear_items] after "yes" empties the item list and the list box and
    shows 0.00 as the subtotal; the total is 0.00 as well whenever the
    clamped discount percent divided by 100 is a finite number (it is
    [0.0 * inf], not a number, for an infinite percent).  After "no" nothing
    changes. *)
Theorem clear_items_resets (st : InvoiceApp) :
  items (clear_items float_of_string true st) = []
  /\ items_list (clear_items float_of_string true st) = []
  /\ subtotal_lbl (clear_items float_of_string true st) = "0.00 USD"%string
  /\ (is_finite
        (py_max 0 (float_or_zero float_of_string (discount_var st)) / 100)
      = true ->
      total_lbl (clear_items float_of_string true st) = "0.00 USD"%string)
  /\ (float_of_string (discount_var st) = Some infinity ->
      total_lbl (clear_items float_of_string true st) = "nan USD"%string)
  /\ clear_items float_of_string false st = st.
Proof.
  unfold clear_items, update_totals.
  cbn [items items_list subtotal_lbl total_lbl discount_var].
  repeat split.
  - intros H. unfold ui_subtotal. cbn [fold_left].
    rewrite (zero_minus_zero_times _ H). reflexivity.
  - intros H. unfold float_or_zero. rewrite H. reflexivity.
Qed.

(** *** [generate_invoice_pdf] *)

(** X8: [generate_invoice_pdf] never changes the form.  It runs [generate_pdf]
    at most once, and only with a non-empty item list and a path the dialog
    returned, on that path, with the items and the logo of the form; when
    the dialog is cancelled it runs nothing. *)
Theorem generate_invoice_pdf_frame (w : world) (st : InvoiceApp) :
  let default_name :=
    (DEFAULT_FILENAME_PREFIX ++ "_" ++ now_stamp w ++ ".pdf")%string in
  let evs := snd (generate_invoice_pdf float_of_string str_of_float w st) in
  fst (generate_invoice_pdf float_of_string str_of_float w st) = st
  /\ (List.length (pdf_runs evs) <= 1)%nat
  /\ (forall path run,
        In (path, run) (pdf_runs evs) ->
        items st <> []
        /\ path = asksaveasfilename w default_name
        /\ is_empty path = false
        /\ run = generate_pdf str_of_float w path (company_of st)
                   (logo_path st) (items st)
                   (float_or_zero float_of_string (discount_var st))
                   (meta_of w))
  /\ (is_empty (asksaveasfilename w default_name) = true ->
      pdf_runs evs = []).
Proof.
  cbv zeta. unfold generate_invoice_pdf.
  fold (company_of st). fold (meta_of w).
  destruct (items st) as [|it rest] eqn:Hit.
  { cbn. split; [reflexivity|]. split; [lia|].
    split; [intros path run []|reflexivity]. }
  destruct (is_empty (asksaveasfilename w _)) eqn:Hp.
  { cbn. split; [reflexivity|]. split; [lia|].
    split; [intros path run []|reflexivity]. }
  destruct (raised _); cbn; (split; [reflexivity|]); (split; [lia|]);
    (split; [|discriminate]);
    intros path run [E|[]]; injection E as <- <-;
    (split; [discriminate|]); (split; [reflexivity|]);
    (split; [exact Hp|reflexivity]).
Qed.

(** X9: when [c.save()] fails, the callback reports it: with items in the list
    and a path chosen, the events are the dialog, the run, and one error box
    carrying the text of the exception; no "Saved" box is shown. *)
Theorem save_failure_is_reported (w : world) (st : InvoiceApp) (it : item)
    (rest : list item) (e : string)
    (Hitems : items st = it :: rest)
    (Hpath : is_empty
               (asksaveasfilename w
                  (DEFAULT_FILENAME_PREFIX ++ "_" ++ now_stamp w ++ ".pdf"))
             = false)
    (Herr : save_error w
              (asksaveasfilename w
                 (DEFAULT_FILENAME_PREFIX ++ "_" ++ now_stamp w ++ ".pdf"))
            = Some e) :
  let default_name :=
    (DEFAULT_FILENAME_PREFIX ++ "_" ++ now_stamp w ++ ".pdf")%string in
  let path := asksaveasfilename w default_name in
  snd (generate_invoice_pdf float_of_string str_of_float w st)
  = [AskSaveAs default_name;
     GeneratePdf path
       (generate_pdf str_of_float w path (company_of st) (logo_path st)
          (items st) (float_or_zero float_of_string (discount_var st))
          (meta_of w));
     ShowError "Error" ("Failed to generate PDF: " ++ e)%string].
Proof.
  cbv zeta. unfold generate_invoice_pdf.
  fold (company_of st). fold (meta_of w).
  rewrite Hitems, <- Hitems, Hpath.
  assert (Hr : raised
                 (generate_pdf str_of_float w
                    (asksaveasfilename w
                       (DEFAULT_FILENAME_PREFIX ++ "_" ++ now_stamp w
                        ++ ".pdf"))
                    (company_of st) (logo_path st) (items st)
                    (float_or_zero float_of_string (discount_var st))
                    (meta_of w))
               = Some e).
  { unfold generate_pdf.
    destruct (draw_logo w (logo_path st)) as [lg out].
    destruct (draw_items _ _ _ _) as [[y s] rows].
    destruct (draw_totals _ _ _ _) as [y' totals]. exact Herr. }
  rewrite Hr. reflexivity.
Qed.

(** *** [update_totals] *)

Lemma positive_is_nonnegative (d : float) : (0 <? d) = true -> (0 <=? d) = true.
Proof.
  rewrite FloatAxioms.ltb_spec, FloatAxioms.leb_spec. unfold SFltb, SFleb.
  destruct (SFcompare (Prim2SF 0) (Prim2SF d)) as [[ | | ]|];
    intros H; try discriminate H; reflexivity.
Qed.

(** X10: the percent [update_totals] applies is never negative and never NaN:
    whatever the discount entry holds, it is a number [p] with [0 <= p],
    either what the entry parsed to or 0. *)
Theorem shown_discount_not_negative (st : InvoiceApp) :
  exists p,
    (0 <=? p) = true
    /\ (float_of_string (discount_var st) = Some p \/ p = 0)
    /\ total_lbl (update_totals float_of_string st)
       = (format_2f (ui_subtotal (items st)
                     - ui_subtotal (items st) * (p / 100))
          ++ " " ++ CURRENCY)%string.
Proof.
  unfold update_totals. cbn [total_lbl].
  unfold float_or_zero, py_max.
  destruct (float_of_string (discount_var st)) as [d|].
  - destruct (0 <? d) eqn:Hd.
    + exists d. split; [apply positive_is_nonnegative, Hd|].
      split; [left; reflexivity|reflexivity].
    + exists 0. split; [reflexivity|]. split; [right; reflexivity|reflexivity].
  - exists 0. replace (0 <? 0) with false by reflexivity.
    split; [reflexivity|]. split; [right; reflexivity|reflexivity].
Qed.

End FormCallbacks.

(** * The layout: pages, wrapped text, row contents, address, logo *)

(** The string without its first [n] characters. *)
Fixpoint drop (n : nat) (s : string) : string :=
  match n, s with
  | O, _ => s
  | S n', String _ s' => drop n' s'
  | S _, EmptyString => EmptyString
  end.

Definition is_save (c : cmd) : bool :=
  match c with Save => true | _ => false end.

(** No call in the list saves the document. *)
Definition no_save (cs : list cmd) : Prop :=
  Forall (fun c => is_save c = false) cs.

Section Layout.

Variable str_of_float : float -> string.

Set Default Proof Using "Type".

Local Open Scope float_scope.
Local Open Scope list_scope.

(** ** The number of pages *)

Lemma walk_first_page (r : nat) :
  (r < 46)%nat -> snd (walk r (table_top - 10)) = 0%nat.
Proof.
  intros H.
  assert (Hall : forallb (fun r => (snd (walk r (table_top - 10)) =? 0)%nat)
                   (seq 0 46) = true) by (vm_compute; reflexivity).
  rewrite forallb_forall in Hall.
  apply Nat.eqb_eq, Hall, in_seq. lia.
Qed.

Lemma walk_later_page (r : nat) :
  (r < 56)%nat -> snd (walk r (height - 40 * mm)) = 0%nat.
Proof.
  intros H.
  assert (Hall : forallb (fun r => (snd (walk r (height - 40 * mm)) =? 0)%nat)
                   (seq 0 56) = true) by (vm_compute; reflexivity).
  rewrite forallb_forall in Hall.
  apply Nat.eqb_eq, Hall, in_seq. lia.
Qed.

Lemma walk_later_pages (k : nat) :
  walk (56 * k) (height - 40 * mm) = (height - 40 * mm, k).
Proof.
  induction k as [|k IH].
  - reflexivity.
  - replace (56 * S k)%nat with (56 + 56 * k)%nat by lia.
    rewrite walk_add.
    replace (walk 56 (height - 40 * mm)) with (height - 40 * mm, 1%nat)
      by (vm_compute; reflexivity).
    cbn [fst snd]. rewrite IH. reflexivity.
Qed.

Lemma walk_breaks (n : nat) :
  snd (walk n (table_top - 10))
  = (if (n <? 46)%nat then 0 else 1 + (n - 46) / 56)%nat.
Proof.
  destruct (Nat.ltb_spec n 46) as [Hlt|Hge].
  - apply walk_first_page, Hlt.
  - pose proof (Nat.div_mod_eq (n - 46) 56) as Hdm.
    pose proof (Nat.mod_upper_bound (n - 46) 56 ltac:(lia)) as Hr.
    set (k := ((n - 46) / 56)%nat) in *. set (r := ((n - 46) mod 56)%nat) in *.
    replace n with (46 + (56 * k + r))%nat at 1 by lia.
    rewrite walk_add.
    replace (walk 46 (table_top - 10)) with (height - 40 * mm, 1%nat)
      by (vm_compute; reflexivity).
    cbn [fst snd]. rewrite walk_add, walk_later_pages. cbn [fst snd].
    rewrite (walk_later_page r Hr). lia.
Qed.

(** X11: the page is closed after the 46th line of rows on the first page
    and after every 56th line on a later page: a run whose rows take [n]
    lines closes one page when [n < 46], and [2 + (n - 46) / 56] pages
    otherwise. *)
Theorem page_count (w : world) (path : string) (ci : company_info)
    (logo : option string) (its : list item) (d : float)
    (im : invoice_meta) :
  pages (calls (generate_pdf str_of_float w path ci logo its d im))
  = (if (total_lines its <? 46)%nat then 1
     else 2 + (total_lines its - 46) / 56)%nat.
Proof.
  rewrite pages_generate_pdf, walk_breaks.
  destruct (total_lines its <? 46)%nat; reflexivity.
Qed.

(** ** Wrapping loses nothing *)

Lemma substring_drop (n : nat) :
  forall i m s, substring (n + i) m s = substring i m (drop n s).
Proof.
  induction n as [|n IH]; intros i m s; [reflexivity|].
  destruct s as [|c s]; simpl.
  - destruct i, m; reflexivity.
  - apply IH.
Qed.

Lemma substring_then_drop (n : nat) :
  forall s, (substring 0 n s ++ drop n s)%string = s.
Proof.
  induction n as [|n IH]; intros s.
  - destruct s; reflexivity.
  - destruct s as [|c s]; simpl; [reflexivity|]. rewrite IH. reflexivity.
Qed.

Lemma length_drop (n : nat) :
  forall s, String.length (drop n s) = (String.length s - n)%nat.
Proof.
  induction n as [|n IH]; intros s; simpl.
  - lia.
  - destruct s as [|c s]; simpl; [reflexivity|]. apply IH.
Qed.

Lemma length_substring_le (i n : nat) :
  forall s, (String.length (substring i n s) <= n)%nat.
Proof.
  revert n. induction i as [|i IH]; intros n s.
  - revert s. induction n as [|n IHn]; intros s.
    + destruct s; simpl; lia.
    + destruct s as [|c s]; simpl; [lia|]. specialize (IHn s). lia.
  - destruct s as [|c s]; simpl.
    + destruct n; simpl; lia.
    + apply IH.
Qed.

Lemma append_assoc (a b c : string) :
  ((a ++ b) ++ c)%string = (a ++ (b ++ c))%string.
Proof. induction a as [|x a IH]; simpl; [reflexivity|]. rewrite IH. reflexivity. Qed.

Lemma join_cons (l : string) (ls : list string) :
  join (l :: ls) = (l ++ join ls)%string.
Proof. reflexivity. Qed.

Lemma join_app (a b : list string) :
  join (a ++ b) = (join a ++ join b)%string.
Proof.
  induction a as [|l a IH]; [reflexivity|].
  cbn [app]. rewrite !join_cons, IH, append_assoc. reflexivity.
Qed.

Lemma join_slices (k : nat) :
  forall s,
    (String.length s <= k * max_chars)%nat ->
    join (map (fun i => substring (i * max_chars) max_chars s) (seq 0 k)) = s.
Proof.
  induction k as [|k IH]; intros s Hs.
  - destruct s; [reflexivity|simpl in Hs; lia].
  - cbn [seq map]. rewrite join_cons.
    rewrite <- seq_shift, map_map.
    rewrite (map_ext _ (fun i => substring (i * max_chars) max_chars
                                   (drop max_chars s))).
    + rewrite IH by (rewrite length_drop; unfold max_chars in *; lia).
      apply substring_then_drop.
    + intros i. cbn [Nat.mul]. apply substring_drop.
Qed.

Lemma ceil_div_covers (n k : nat) : (0 < k)%nat -> (n <= ceil_div n k * k)%nat.
Proof.
  intros Hk. unfold ceil_div.
  pose proof (Nat.div_mod_eq (n + k - 1) k) as Hdm.
  pose proof (Nat.mod_upper_bound (n + k - 1) k ltac:(lia)) as Hr.
  nia.
Qed.

Lemma join_wrap (d : string) : join (wrap d) = d.
Proof.
  destruct d as [|c d']; [reflexivity|].
  rewrite wrap_slices by (simpl; lia).
  apply join_slices, ceil_div_covers. unfold max_chars. lia.
Qed.

(** X12: wrapping keeps the description: the wrapped lines put end to end are the
    description itself, character for character; there is at least one
    line, and no line is longer than 50 characters. *)
Theorem wrap_keeps_text (d : string) :
  join (wrap d) = d
  /\ wrap d <> []
  /\ Forall (fun line => (String.length line <= max_chars)%nat) (wrap d).
Proof.
  destruct d as [|c d'].
  { split; [reflexivity|]. split; [discriminate|].
    repeat constructor. }
  assert (Hl : (0 < String.length (String c d'))%nat) by (simpl; lia).
  rewrite (wrap_slices _ Hl). split; [|split].
  - apply join_slices, ceil_div_covers. unfold max_chars. lia.
  - rewrite (ceil_div_step _ max_chars) by (unfold max_chars; lia).
    discriminate.
  - apply Forall_forall. intros line Hin. apply in_map_iff in Hin.
    destruct Hin as (k & <- & _). apply length_substring_le.
Qed.

(** ** What the rows print *)

(** X13: the rows print every item, in order, and nothing else: the left-aligned
    texts of the item loop are the wrapped lines of the descriptions one item
    after the other, and its right-aligned texts are, item by item, the
    quantity, the unit price and the line total; a page break in between
    drops or repeats none of them. *)
Theorem rows_print_items_in_order (w : world) (path : string)
    (ci : company_info) (logo : option string) (its : list item) (d : float)
    (im : invoice_meta) :
  map cmd_text (filter is_left_string (row_calls str_of_float its))
  = flat_map (fun it => wrap (desc it)) its
  /\ map cmd_text (filter is_right_string (row_calls str_of_float its))
     = flat_map (fun it => [str_of_float (qty it); format_2f (unit it);
                            format_2f (qty it * unit it)]) its
  /\ join (map cmd_text (filter is_left_string (row_calls str_of_float its)))
     = join (map desc its)
  /\ exists pre post,
       calls (generate_pdf str_of_float w path ci logo its d im)
       = pre ++ row_calls str_of_float its ++ post.
Proof.
  destruct (draw_items_texts str_of_float its (table_top - 10) 0) as [H1 H2].
  split; [exact H1|]. split; [exact H2|]. split; [|apply row_calls_in_run].
  unfold row_calls. rewrite H1. clear H1 H2.
  induction its as [|it rest IH]; [reflexivity|].
  cbn [flat_map map]. rewrite join_app, join_cons, IH.
  rewrite (join_wrap (desc it)). reflexivity.
Qed.

End Layout.

(** ** The address, the end of the run, the logo *)

Section Blocks.

Variable float_of_string : string -> option float.
Variable str_of_float : float -> string.
Variable basename : string -> string.

Set Default Proof Using "Type".

Local Open Scope float_scope.
Local Open Scope list_scope.

Lemma has_newline_append (a b : string) :
  has_newline (a ++ b) = has_newline a || has_newline b.
Proof.
  induction a as [|c a IH]; simpl; [reflexivity|].
  rewrite IH. apply orb_assoc.
Qed.

Lemma split_lines_acc_no_newline (s : string) :
  forall cur,
    has_newline cur = false ->
    Forall (fun l => has_newline l = false) (split_lines_acc cur s).
Proof.
  induction s as [|c s IH]; intros cur Hc; simpl.
  - constructor; [exact Hc|constructor].
  - destruct (Ascii.eqb c newline) eqn:E.
    + constructor; [exact Hc|]. apply IH. reflexivity.
    + apply IH. rewrite has_newline_append, Hc. simpl. rewrite E. reflexivity.
Qed.

Lemma lstrip_no_newline (s : string) :
  has_newline s = false -> has_newline (lstrip s) = false.
Proof.
  induction s as [|c s IH]; simpl; [reflexivity|].
  intros H. apply orb_false_iff in H. destruct H as [Hc Hs].
  destruct (is_space c); [apply IH, Hs|]. simpl. rewrite Hc, Hs. reflexivity.
Qed.

Lemma rstrip_no_newline (s : string) :
  has_newline s = false -> has_newline (rstrip s) = false.
Proof.
  induction s as [|c s IH]; simpl; [reflexivity|].
  intros H. apply orb_false_iff in H. destruct H as [Hc Hs].
  destruct (is_empty (rstrip s) && is_space c); [reflexivity|].
  simpl. rewrite Hc, (IH Hs). reflexivity.
Qed.

Lemma strip_all_space (s : string) : all_space s = true -> strip s = EmptyString.
Proof. intros H. unfold strip. rewrite (lstrip_all_space s H). reflexivity. Qed.

(** X14: the address block is clean: every address line [generate_invoice_pdf]
    passes on is non-empty and holds no line break, whatever the address
    entry contains; an entry of white space only gives no line at all. *)
Theorem address_lines_clean (addr : string) :
  Forall (fun l => is_empty l = false /\ has_newline l = false)
    (address_of addr)
  /\ (all_space addr = true -> address_of addr = []).
Proof.
  split.
  - unfold address_of. apply Forall_forall. intros l Hin.
    apply in_map_iff in Hin. destruct Hin as (line & <- & Hin).
    apply filter_In in Hin. destruct Hin as [Hin Hne].
    split; [apply negb_true_iff, Hne|].
    unfold strip. apply rstrip_no_newline, lstrip_no_newline.
    pose proof (split_lines_acc_no_newline addr EmptyString eq_refl) as Hall.
    rewrite Forall_forall in Hall. exact (Hall line Hin).
  - intros Hsp. unfold address_of.
    assert (Hall : forall cur,
               all_space cur = true ->
               Forall (fun l => all_space l = true) (split_lines_acc cur addr)).
    { induction addr as [|c s IH]; intros cur Hc; simpl.
      - constructor; [exact Hc|constructor].
      - simpl in Hsp. apply andb_prop in Hsp. destruct Hsp as [Hc1 Hs].
        destruct (Ascii.eqb c newline).
        + constructor; [exact Hc|]. apply (IH Hs). reflexivity.
        + apply (IH Hs). clear IH.
          induction cur as [|x cur IHc]; simpl.
          * rewrite Hc1. reflexivity.
          * simpl in Hc. apply andb_prop in Hc. destruct Hc as [Hx Hc].
            rewrite Hx. apply IHc, Hc. }
    specialize (Hall EmptyString eq_refl). unfold split_lines.
    induction Hall as [|l ls Hl _ IH]; [reflexivity|].
    cbn [filter]. rewrite (strip_all_space l Hl). cbn [is_empty negb].
    exact IH.
Qed.

(** *** The end of a run *)

Lemma no_save_app (a b : list cmd) : no_save a -> no_save b -> no_save (a ++ b).
Proof. unfold no_save. intros Ha Hb. apply Forall_app. split; assumption. Qed.

Lemma no_save_draw_address x y ls : no_save (draw_address x y ls).
Proof.
  revert y. induction ls as [|l ls IH]; intros y; simpl.
  - constructor.
  - constructor; [reflexivity|apply IH].
Qed.

Lemma no_save_draw_note_lines y ls : no_save (draw_note_lines y ls).
Proof.
  revert y. induction ls as [|l ls IH]; intros y; simpl.
  - constructor.
  - constructor; [reflexivity|apply IH].
Qed.

Lemma no_save_draw_lines q u t (lines : list string) :
  forall li y, no_save (snd (draw_lines str_of_float q u t li lines y)).
Proof.
  induction lines as [|line rest IH]; intros li y.
  - constructor.
  - rewrite draw_lines_cons.
    assert (Hb : no_save (snd (advance y))).
    { unfold advance. destruct (y - 11 <? 40 * mm); repeat constructor. }
    destruct (advance y) as [y1 brk]. specialize (IH (S li) y1).
    destruct (draw_lines str_of_float q u t (S li) rest y1) as [y2 more].
    cbn [snd] in *. repeat apply no_save_app; try assumption.
    unfold draw_line. destruct (li =? 0)%nat; repeat constructor.
Qed.

Lemma no_save_draw_items (its : list item) :
  forall y s, no_save (snd (draw_items str_of_float its y s)).
Proof.
  induction its as [|it rest IH]; intros y s; simpl.
  - constructor.
  - pose proof (no_save_draw_lines (qty it) (unit it) (qty it * unit it)
                  (wrap (desc it)) 0 y) as Hl.
    destruct (draw_lines str_of_float _ _ _ _ _ y) as [y1 row].
    specialize (IH y1 (s + qty it * unit it)).
    destruct (draw_items str_of_float rest y1 _) as [[y2 s2] more].
    cbn [snd] in *. apply no_save_app; assumption.
Qed.

Lemma no_save_draw_logo w logo : no_save (fst (draw_logo w logo)).
Proof.
  unfold draw_logo. destruct logo as [p|]; [|constructor].
  destruct (negb (is_empty p) && path_exists w p); [|constructor].
  unfold logo_attempt.
  destruct (image_open w p) as [e|[iw ih]]; [constructor|].
  destruct (logo_box iw ih) as [[tw th]|]; [|constructor].
  destruct (draw_image_error w p); repeat constructor.
Qed.

(** X15: every run ends by closing the page and saving, and saves once: the
    canvas calls are some calls, none of which is [save], followed by
    [showPage] and [save]; so nothing is drawn after the save and a run has
    at least one page, even for an empty item list. *)
Theorem run_saves_once_at_the_end (w : world) (path : string)
    (ci : company_info) (logo : option string) (its : list item) (d : float)
    (im : invoice_meta) :
  (exists body,
     calls (generate_pdf str_of_float w path ci logo its d im)
     = body ++ [ShowPage; Save]
     /\ no_save body)
  /\ List.length
       (filter is_save
          (calls (generate_pdf str_of_float w path ci logo its d im)))
     = 1%nat
  /\ (1 <= pages (calls (generate_pdf str_of_float w path ci logo its d im)))%nat.
Proof.
  assert (H : exists body,
             calls (generate_pdf str_of_float w path ci logo its d im)
             = body ++ [ShowPage; Save]
             /\ no_save body).
  { unfold generate_pdf.
    pose proof (no_save_draw_logo w logo) as Hl.
    destruct (draw_logo w logo) as [lg out]. cbn [fst] in Hl.
    pose proof (no_save_draw_items its (table_top - 10) 0) as Hr.
    destruct (draw_items str_of_float its (table_top - 10) 0)
      as [[y s] rows].
    unfold draw_totals. cbv zeta. cbn [calls snd] in *.
    eexists. split.
    - repeat rewrite app_assoc. reflexivity.
    - unfold draw_company, draw_meta, draw_table_header, draw_notes.
      destruct (is_empty (notes ci));
        repeat first
          [ assumption
          | apply no_save_draw_address
          | apply no_save_draw_note_lines
          | apply no_save_app
          | apply Forall_nil
          | apply Forall_cons; [reflexivity|] ]. }
  split; [exact H|]. split.
  - destruct H as (body & -> & Hb). rewrite filter_app.
    assert (E : filter is_save body = []).
    { induction Hb as [|c cs Hc _ IH]; [reflexivity|].
      simpl. rewrite Hc. exact IH. }
    rewrite E. reflexivity.
  - rewrite pages_generate_pdf. lia.
Qed.

(** *** A logo that can be drawn *)


(** *** The logo path of the form *)

(** X17: the form has no way to drop a logo: an action leaves a set logo path as
    it is, or replaces it by the non-empty path the logo dialog returned; and
    in every reachable state the logo path, when set, is a non-empty
    string. *)
Theorem logo_path_is_never_cleared (a : action) (st st' : InvoiceApp)
    (p : string)
    (Hstep : step float_of_string str_of_float basename a st = Some st')
    (Hlogo : logo_path st = Some p) :
  (logo_path st' = Some p
   \/ exists chosen,
        a = ClickLoadLogo chosen /\ is_empty chosen = false
        /\ logo_path st' = Some chosen)
  /\ (forall s,
        reachable float_of_string str_of_float basename s ->
        forall q, logo_path s = Some q -> is_empty q = false).
Proof.
  split.
  - destruct a; simpl in Hstep;
      try (injection Hstep as <-; left; exact Hlogo).
    + injection Hstep as <-. unfold load_logo.
      destruct (is_empty chosen) eqn:E; [left; exact Hlogo|].
      right. exists chosen. repeat split. exact E.
    + injection Hstep as <-. left. unfold add_item.
      destruct (is_empty (strip (desc_entry st))); exact Hlogo.
    + unfold remove_selected in Hstep. destruct sel as [|idx more].
      * injection Hstep as <-. left; exact Hlogo.
      * destruct (idx <? List.length (items st))%nat; [|discriminate].
        injection Hstep as <-. left; exact Hlogo.
    + injection Hstep as <-. left. unfold clear_items.
      destruct answer; exact Hlogo.
    + injection Hstep as <-. left.
      rewrite generate_invoice_pdf_state. exact Hlogo.
  - intros s Hr. induction Hr as [|b s s' _ IH Hs]; intros q Hq.
    + discriminate Hq.
    + destruct b; simpl in Hs;
        try (injection Hs as <-; exact (IH q Hq)).
      * injection Hs as <-. unfold load_logo in Hq.
        destruct (is_empty chosen) eqn:E; [exact (IH q Hq)|].
        cbn [fst logo_path] in Hq. injection Hq as <-. exact E.
      * injection Hs as <-. unfold add_item in Hq.
        destruct (is_empty (strip (desc_entry s))); exact (IH q Hq).
      * unfold remove_selected in Hs. destruct sel as [|idx more].
        -- injection Hs as <-. exact (IH q Hq).
        -- destruct (idx <? List.length (items s))%nat; [|discriminate].
           injection Hs as <-. exact (IH q Hq).
      * injection Hs as <-. unfold clear_items in Hq.
        destruct answer; exact (IH q Hq).
      * injection Hs as <-. rewrite generate_invoice_pdf_state in Hq.
        exact (IH q Hq).
Qed.

End Blocks.

(** ** Worked instances of the properties above *)

Module Demo.

(** [os.path.basename] of a POSIX path: what follows the last slash. *)
Fixpoint basename_acc (cur s : string) : string :=
  match s with
  | EmptyString => cur
  | String c rest =>
      if Ascii.eqb c "/" then basename_acc EmptyString rest
      else basename_acc (cur ++ String c EmptyString) rest
  end.

Definition basename (p : string) : string := basename_acc EmptyString p.

(** The actions one after the other; [None] as soon as one raises. *)
Fixpoint run (acts : list action) (st : InvoiceApp) : option InvoiceApp :=
  match acts with
  | [] => Some st
  | a :: rest =>
      match step Sample.float_of_string Sample.str_of_float basename a st with
      | Some st' => run rest st'
      | None => None
      end
  end.

(** The form after one item was typed in and added. *)
Definition one_item : InvoiceApp :=
  {| items := [Sample.consulting];
     logo_path := None;
     company_name_var := "Your Company";
     company_addr_var := "123 Business St, City";
     desc_entry := "";
     qty_entry := "";
     unit_entry := "";
     items_list :=
       [row_label Sample.float_of_string Sample.str_of_float "Consulting"
          "2" "100"];
     discount_var := "0";
     subtotal_lbl := "200.00 USD";
     total_lbl := "200.00 USD" |}.

(** The same form with a logo chosen. *)
Definition with_logo : InvoiceApp :=
  {| items := [Sample.consulting];
     logo_path := Some "logo.png";
     company_name_var := "Your Company";
     company_addr_var := "123 Business St, City";
     desc_entry := "";
     qty_entry := "";
     unit_entry := "";
     items_list := items_list one_item;
     discount_var := "0";
     subtotal_lbl := "200.00 USD";
     total_lbl := "200.00 USD" |}.

(** A world whose disk is full: every save fails. *)
Definition disk_full : world :=
  {| path_exists := fun _ => false;
     image_open := fun _ => inl "cannot identify image file";
     draw_image_error := fun _ => None;
     save_error := fun _ => Some "No space left on device";
     now_stamp := "20250101120000";
     now_date := "2025-01-01";
     asksaveasfilename := fun initialfile => initialfile |}.


End Demo.

Lemma run_reachable (acts : list action) :
  forall st st',
    reachable Sample.float_of_string Sample.str_of_float Demo.basename st ->
    Demo.run acts st = Some st' ->
    reachable Sample.float_of_string Sample.str_of_float Demo.basename st'.
Proof.
  induction acts as [|a rest IH]; intros st st' Hr Hrun; simpl in Hrun.
  - injection Hrun as <-. exact Hr.
  - destruct (step Sample.float_of_string Sample.str_of_float Demo.basename
                a st) as [st1|] eqn:Hs; [|discriminate].
    apply (IH st1 st'); [|exact Hrun].
    exact (reachable_step _ _ _ a st st1 Hr Hs).
Qed.

Lemma one_item_reachable :
  reachable Sample.float_of_string Sample.str_of_float Demo.basename
    Demo.one_item.
Proof.
  apply (run_reachable
           [TypeDesc " Consulting "; TypeQty "2"; TypeUnit "100"; ClickAddItem]
           (initial Sample.float_of_string)).
  - constructor.
  - vm_compute. reflexivity.
Qed.

Lemma one_item_listbox_mirrors_items :
  reachable Sample.float_of_string Sample.str_of_float Demo.basename
    Demo.one_item
  /\ List.length (items Demo.one_item) = List.length (items_list Demo.one_item).
Proof.
  split; [exact one_item_reachable|].
  exact (proj2 (listbox_mirrors_items Sample.float_of_string
                  Sample.str_of_float Demo.basename Demo.one_item
                  one_item_reachable)).
Defined.

Lemma one_item_description_not_empty :
  reachable Sample.float_of_string Sample.str_of_float Demo.basename
    Demo.one_item
  /\ Forall (fun it => is_empty (desc it) = false
                       /\ wrap (desc it) <> [EmptyString])
       (items Demo.one_item).
Proof.
  split; [exact one_item_reachable|].
  exact (stored_descriptions_not_empty Sample.float_of_string
           Sample.str_of_float Demo.basename Demo.one_item
           one_item_reachable).
Defined.

Lemma one_item_subtotal_label :
  reachable Sample.float_of_string Sample.str_of_float Demo.basename
    Demo.one_item
  /\ subtotal_lbl Demo.one_item = "200.00 USD".
Proof.
  split; [exact one_item_reachable|].
  exact (subtotal_label_up_to_date Sample.float_of_string
           Sample.str_of_float Demo.basename Demo.one_item
           one_item_reachable).
Defined.

Lemma one_item_row_removed :
  (0 < List.length (items_list Demo.one_item))%nat
  /\ exists st',
       remove_selected Sample.float_of_string [0%nat] Demo.one_item = Some st'
       /\ items st' = [] /\ items_list st' = [].
Proof.
  assert (H : (0 < List.length (items_list Demo.one_item))%nat)
    by (simpl; lia).
  split; [exact H|].
  destruct (proj1 (remove_selected_in_range Sample.float_of_string
                     Sample.str_of_float Demo.basename Demo.one_item 0 []
                     one_item_reachable H))
    as (st' & Hs & Hi & Hl & _).
  exists st'. split; [exact Hs|]. split; [exact Hi|exact Hl].
Defined.

Lemma add_then_remove_on_one_item :
  List.length (items Demo.one_item) = List.length (items_list Demo.one_item)
  /\ is_empty (strip (desc_entry (with_desc_entry Demo.one_item "Travel")))
     = false
  /\ exists st',
       remove_selected Sample.float_of_string [1%nat]
         (fst (add_item Sample.float_of_string Sample.str_of_float
                 (with_desc_entry Demo.one_item "Travel")))
       = Some st'
       /\ items st' = [Sample.consulting].
Proof.
  assert (Hl : List.length (items (with_desc_entry Demo.one_item "Travel"))
               = List.length
                   (items_list (with_desc_entry Demo.one_item "Travel")))
    by reflexivity.
  assert (Hd : is_empty
                 (strip (desc_entry (with_desc_entry Demo.one_item "Travel")))
               = false) by reflexivity.
  split; [exact Hl|]. split; [exact Hd|].
  destruct (add_then_remove_last Sample.float_of_string Sample.str_of_float
              (with_desc_entry Demo.one_item "Travel") Hl Hd)
    as (st' & Hs & Hi & _).
  exists st'. split; [exact Hs|exact Hi].
Defined.

Lemma spaces_are_no_description :
  all_space (desc_entry (with_desc_entry Demo.one_item "   ")) = true
  /\ fst (add_item Sample.float_of_string Sample.str_of_float
            (with_desc_entry Demo.one_item "   "))
     = with_desc_entry Demo.one_item "   ".
Proof.
  assert (H : all_space (desc_entry (with_desc_entry Demo.one_item "   "))
              = true) by reflexivity.
  split; [exact H|].
  exact (f_equal fst
           (blank_description_rejected Sample.float_of_string
              Sample.str_of_float (with_desc_entry Demo.one_item "   ") H)).
Defined.

Lemma full_disk_is_reported :
  items Demo.one_item = [Sample.consulting]
  /\ save_error Demo.disk_full "invoice_20250101120000.pdf"
     = Some "No space left on device"
  /\ exists run,
       snd (generate_invoice_pdf Sample.float_of_string Sample.str_of_float
              Demo.disk_full Demo.one_item)
       = [AskSaveAs "invoice_20250101120000.pdf";
          GeneratePdf "invoice_20250101120000.pdf" run;
          ShowError "Error"
            "Failed to generate PDF: No space left on device"].
Proof.
  assert (Hi : items Demo.one_item = Sample.consulting :: []) by reflexivity.
  assert (He : save_error Demo.disk_full
                 (asksaveasfilename Demo.disk_full
                    (DEFAULT_FILENAME_PREFIX ++ "_"
                     ++ now_stamp Demo.disk_full ++ ".pdf"))
               = Some "No space left on device") by reflexivity.
  assert (Hp : is_empty
                 (asksaveasfilename Demo.disk_full
                    (DEFAULT_FILENAME_PREFIX ++ "_"
                     ++ now_stamp Demo.disk_full ++ ".pdf"))
               = false) by reflexivity.
  split; [exact Hi|]. split; [exact He|].
  eexists.
  exact (save_failure_is_reported Sample.float_of_string Sample.str_of_float
           Demo.disk_full Demo.one_item Sample.consulting []
           "No space left on device" Hi Hp He).
Defined.


Lemma logo_survives_clear_items :
  step Sample.float_of_string Sample.str_of_float Demo.basename
    (ClickClearItems true) Demo.with_logo
  = Some (clear_items Sample.float_of_string true Demo.with_logo)
  /\ logo_path Demo.with_logo = Some "logo.png"
  /\ logo_path (clear_items Sample.float_of_string true Demo.with_logo)
     = Some "logo.png".
Proof.
  assert (Hs : step Sample.float_of_string Sample.str_of_float Demo.basename
                 (ClickClearItems true) Demo.with_logo
               = Some (clear_items Sample.float_of_string true Demo.with_logo))
    by reflexivity.
  assert (Hl : logo_path Demo.with_logo = Some "logo.png") by reflexivity.
  split; [exact Hs|]. split; [exact Hl|].
  destruct (proj1 (logo_path_is_never_cleared Sample.float_of_string
                     Sample.str_of_float Demo.basename (ClickClearItems true)
                     Demo.with_logo _ "logo.png" Hs Hl))
    as [H|(chosen & Ha & _)]; [exact H|discriminate Ha].
Defined.
